(** * Notebooks and infrastructure template of the SageMaker model-optimization guidance

    The repository holds no library code: it is one CloudFormation template
    ([deployment/awsgenaimodelopt.template]) and four Jupyter notebooks
    ([source/*.ipynb]) whose code cells are straight-line Python driving the
    SageMaker SDK.

    The development below embeds
    - the template as the JSON document it is, and
    - the code cells as Python abstract syntax (constructor names follow
      Python's [ast] module), together with a small interpreter that threads
      the kernel namespace and records every call that leaves the notebook
      (SDK calls, IPython magics, shell escapes) in a call log.

    Values returned by the SDK are not known to the notebooks; the interpreter
    keeps them symbolic ([VResult n] is "what call number [n] returned"). *)

From Stdlib Require Import ZArith Lia Ascii String.
From stdpp Require Import base strings list gmap.

Set Warnings "-register-all".

Local Open Scope string_scope.
Local Open Scope Z_scope.
Local Open Scope list_scope.

(** ** Python abstract syntax of the code cells *)

Module Py.

(** Literals.  A float literal is kept as the decimal it is written as
    ([CDec m e] stands for [m * 10^e]); the notebooks never compute with it. *)
Inductive const :=
| CStr (s : string)
| CInt (n : Z)
| CDec (m : Z) (e : Z)
| CBool (b : bool)
| CNone.

Inductive operator := Add | Div.

Inductive expr :=
| EName (id : string)
| EConstant (c : const)
| EJoinedStr (values : list expr)
| EAttribute (value : expr) (attr : string)
| ECall (func : expr) (args : list expr) (keywords : list (string * expr))
| EDict (items : list (expr * expr))
| EList (elts : list expr)
| EBinOp (left : expr) (op : operator) (right : expr).

(** Statements.  [STry body handler] is [try: body / except Exception: handler].
    [SLineMagic] is an IPython line magic ([%pip ...]); [SShellEscape] is an
    IPython shell escape ([!cmd]), in which [{expr}] is interpolated. *)
Inductive stmt :=
| SExpr (value : expr)
| SAssign (target : string) (value : expr)
| SImport (name : string)
| SImportFrom (module name : string)
| SIf (test : expr) (body orelse : list stmt)
| STry (body handler : list stmt)
| SLineMagic (magic line : string)
| SShellEscape (parts : list expr).

Definition EStr (s : string) : expr := EConstant (CStr s).
Definition EInt (n : Z) : expr := EConstant (CInt n).
Definition ETrue : expr := EConstant (CBool true).

End Py.
Import Py.

(** A notebook is a list of cells.  Of a markdown cell only the inline code
    spans (the text between back-ticks, in order of appearance) are kept: the
    prose has no effect on the kernel. *)
Inductive cell :=
| Markdown (code_spans : list string)
| Code (source : list stmt).

Record notebook := { nb_file : string; cells : list cell }.

(** ** Values, call log, kernel state *)

Inductive value :=
| VConst (c : const)
| VDict (items : list (value * value))
| VList (elts : list value)
| VJoined (parts : list value)
| VBinOp (l : value) (op : operator) (r : value)
| VModule (name : string)
| VAttr (obj : value) (attr : string)
| VResult (call : nat).

Definition VStr (s : string) : value := VConst (CStr s).

(** What a log entry went to: a Python callable, an IPython line magic, or
    the system shell. *)
Inductive callee :=
| Callable (f : value)
| LineMagic (name : string)
| Shell.

(** One entry of the call log: the cell (position in the notebook) that made
    the call, the callee, and the evaluated arguments. *)
Record event := {
  ev_cell : nat;
  ev_callee : callee;
  ev_args : list value;
  ev_kwargs : list (string * value)
}.

Inductive exn :=
| NameError (name : string)
| External (what : string).

Inductive outcome (A : Type) :=
| Ok (a : A)
| Raises (x : exn).
Arguments Ok {A} a.
Arguments Raises {A} x.

Record kernel := {
  ns : gmap string value;
  calls : list event
}.

Definition kernel0 : kernel := {| ns := ∅; calls := [] |}.

(** State-and-exception monad: a raised exception keeps the kernel state
    reached so far, as a Jupyter kernel does. *)
Definition M (A : Type) : Type := kernel -> outcome A * kernel.

Definition ret {A} (a : A) : M A := fun k => (Ok a, k).

Definition bind {A B} (m : M A) (f : A -> M B) : M B :=
  fun k => match m k with
           | (Ok a, k') => f a k'
           | (Raises x, k') => (Raises x, k')
           end.

Definition raise {A} (x : exn) : M A := fun k => (Raises x, k).

Definition catch {A} (m : M A) (h : M A) : M A :=
  fun k => match m k with
           | (Ok a, k') => (Ok a, k')
           | (Raises _, k') => h k'
           end.

Declare Scope py_scope.
Delimit Scope py_scope with py.
Notation "x <- c1 ;; c2" := (bind c1 (fun x => c2))
  (at level 100, c1 at next level, right associativity) : py_scope.
Notation "c1 ;;; c2" := (bind c1 (fun _ => c2))
  (at level 100, right associativity) : py_scope.
Local Open Scope py_scope.

Definition load_name (id : string) : M value :=
  fun k => match ns k !! id with
           | Some v => (Ok v, k)
           | None => (Raises (NameError id), k)
           end.

Definition store_name (id : string) (v : value) : M unit :=
  fun k => (Ok tt, {| ns := <[id := v]> (ns k); calls := calls k |}).

Definition log_event (ev : event) : M nat :=
  fun k => (Ok (length (calls k)), {| ns := ns k; calls := calls k ++ [ev] |}).

(** Python truth value of a value the notebook can inspect; an SDK object is
    true, as objects are unless their class says otherwise. *)
Definition truthy (v : value) : bool :=
  match v with
  | VConst (CStr s) => negb (String.eqb s EmptyString)
  | VConst (CInt n) => negb (n =? 0)
  | VConst (CDec m _) => negb (m =? 0)
  | VConst (CBool b) => b
  | VConst CNone => false
  | VDict items => negb (Nat.eqb (length items) 0)
  | VList elts => negb (Nat.eqb (length elts) 0)
  | _ => true
  end.

Definition binop (l : value) (op : operator) (r : value) : value :=
  match op, l, r with
  | Add, VConst (CStr a), VConst (CStr b) => VStr (a +:+ b)
  | Add, VConst (CInt a), VConst (CInt b) => VConst (CInt (a + b))
  | _, _, _ => VBinOp l op r
  end.

(** Monadic traversals, left to right as Python evaluates. *)
Section Traversals.
Context {A B : Type} (f : A -> M B).

Fixpoint mapM (l : list A) : M (list B) :=
  match l with
  | [] => ret []
  | a :: l' => b <- f a ;; bs <- mapM l' ;; ret (b :: bs)
  end.
End Traversals.

Section Blocks.
Context {A : Type} (f : A -> M unit).

Fixpoint iterM (l : list A) : M unit :=
  match l with
  | [] => ret tt
  | a :: l' => f a ;;; iterM l'
  end.
End Blocks.

Section Interpreter.

(** The platform behind the SDK: whether the call logged as entry [n]
    fails, and with what.  Only Python calls consult it. *)
Variable fails : nat -> event -> option string.

(** A call is logged, then either raises what the platform raises or
    returns a fresh symbolic result. *)
Definition call (c : nat) (f : value) (args : list value)
    (kwargs : list (string * value)) : M value :=
  let ev := {| ev_cell := c; ev_callee := Callable f;
               ev_args := args; ev_kwargs := kwargs |} in
  n <- log_event ev ;;
  match fails n ev with
  | Some what => raise (External what)
  | None => ret (VResult n)
  end.

(** Magics and shell escapes are logged too; a failing [pip] or [aws]
    prints its error and raises nothing. *)
Definition escape (c : nat) (f : callee) (args : list value) : M unit :=
  log_event {| ev_cell := c; ev_callee := f; ev_args := args; ev_kwargs := [] |} ;;;
  ret tt.

Fixpoint eval (c : nat) (e : expr) {struct e} : M value :=
  match e with
  | EName id => load_name id
  | EConstant k => ret (VConst k)
  | EJoinedStr values => vs <- mapM (eval c) values ;; ret (VJoined vs)
  | EAttribute o attr => v <- eval c o ;; ret (VAttr v attr)
  | ECall func args keywords =>
      f <- eval c func ;;
      vs <- mapM (eval c) args ;;
      kvs <- mapM (fun kw => v <- eval c (snd kw) ;; ret (fst kw, v)) keywords ;;
      call c f vs kvs
  | EDict items =>
      kvs <- mapM (fun it => vk <- eval c (fst it) ;;
                             vv <- eval c (snd it) ;;
                             ret (vk, vv)) items ;;
      ret (VDict kvs)
  | EList elts => vs <- mapM (eval c) elts ;; ret (VList vs)
  | EBinOp l op r => vl <- eval c l ;; vr <- eval c r ;; ret (binop vl op vr)
  end.

Fixpoint exec (c : nat) (s : stmt) {struct s} : M unit :=
  match s with
  | SExpr e => eval c e ;;; ret tt
  | SAssign target e => v <- eval c e ;; store_name target v
  | SImport name => store_name name (VModule name)
  | SImportFrom module name => store_name name (VAttr (VModule module) name)
  | SIf test body orelse =>
      v <- eval c test ;;
      if truthy v then iterM (exec c) body else iterM (exec c) orelse
  | STry body handler => catch (iterM (exec c) body) (iterM (exec c) handler)
  | SLineMagic magic line => escape c (LineMagic magic) [VStr line]
  | SShellEscape parts =>
      vs <- mapM (eval c) parts ;; escape c Shell [VJoined vs]
  end.

(** "Run All": cells run top to bottom, the first exception stops the run. *)
Fixpoint run_cells (c : nat) (cs : list cell) : M unit :=
  match cs with
  | [] => ret tt
  | Markdown _ :: cs' => run_cells (S c) cs'
  | Code source :: cs' => iterM (exec c) source ;;; run_cells (S c) cs'
  end.

Definition run (nb : notebook) : outcome unit * kernel :=
  run_cells 0 (cells nb) kernel0.

End Interpreter.

(** The run in which the platform never fails. *)
Definition never : nat -> event -> option string := fun _ _ => None.
Definition trace (nb : notebook) : list event := calls (snd (run never nb)).
Definition namespace (nb : notebook) : gmap string value := ns (snd (run never nb)).

(** ** The code cells

    Cells 1, 3, 4 and 5 are the same in the four notebooks. *)

Definition EMethod (obj : string) (method : string) (args : list expr)
    (keywords : list (string * expr)) : expr :=
  ECall (EAttribute (EName obj) method) args keywords.

(** [%pip install sagemaker>=2.225.0 boto3 huggingface_hub --upgrade --quiet] *)
Definition cell_install : list stmt :=
  [ SLineMagic "pip" "install sagemaker>=2.225.0 boto3 huggingface_hub --upgrade --quiet" ].

Definition cell_imports : list stmt :=
  [ SImport "boto3";
    SImportFrom "sagemaker.serve.builder.model_builder" "ModelBuilder";
    SImportFrom "sagemaker.serve.builder.schema_builder" "SchemaBuilder";
    SImportFrom "sagemaker.session" "Session";
    SImport "logging";
    SImport "huggingface_hub";
    SImportFrom "pathlib" "Path" ].

Definition cell_session : list stmt :=
  [ SAssign "sagemaker_session" (ECall (EName "Session") [] []);
    SAssign "artifacts_bucket_name" (EMethod "sagemaker_session" "default_bucket" [] []);
    SAssign "execution_role_arn" (EMethod "sagemaker_session" "get_caller_identity_arn" [] []);
    SAssign "js_model_id" (EStr "meta-textgeneration-llama-3-70b");
    SAssign "gpu_instance_type" (EStr "ml.p4d.24xlarge");
    SAssign "neuron_instance_type" (EStr "ml.inf2.48xlarge") ].

Definition cell_schema : list stmt :=
  [ SAssign "response"
      (EStr "Hello, I'm a language model, and I'm here to help you with your English.");
    SAssign "sample_input"
      (EDict [ (EStr "inputs", EStr "Hello, I'm a language model,");
               (EStr "parameters",
                EDict [ (EStr "max_new_tokens", EInt 128);
                        (EStr "top_p", EConstant (CDec 9 (-1)));
                        (EStr "temperature", EConstant (CDec 6 (-1))) ]) ]);
    SAssign "sample_output" (EList [ EDict [ (EStr "generated_text", EName "response") ] ]);
    SAssign "schema_builder"
      (ECall (EName "SchemaBuilder") [ EName "sample_input"; EName "sample_output" ] []) ].

(** The model handle, as notebooks 1 to 3 build it. *)
Definition cell_model_builder : list stmt :=
  [ SAssign "model_builder"
      (ECall (EName "ModelBuilder") []
         [ ("model", EName "js_model_id");
           ("schema_builder", EName "schema_builder");
           ("sagemaker_session", EName "sagemaker_session");
           ("role_arn", EName "execution_role_arn");
           ("log_level", EAttribute (EName "logging") "ERROR") ]) ].

(** Notebook 4 builds it without [log_level]. *)
Definition cell_model_builder_nb4 : list stmt :=
  [ SAssign "model_builder"
      (ECall (EName "ModelBuilder") []
         [ ("model", EName "js_model_id");
           ("schema_builder", EName "schema_builder");
           ("sagemaker_session", EName "sagemaker_session");
           ("role_arn", EName "execution_role_arn") ]) ].

Definition cell_deploy : list stmt :=
  [ SAssign "predictor" (EMethod "optimized_model" "deploy" [] [ ("accept_eula", ETrue) ]) ].

Definition cell_predict : list stmt :=
  [ SExpr (EMethod "predictor" "predict" [ EName "sample_input" ] []) ].

(** The cell is headed by the comment [# Clean up]. *)
Definition cell_cleanup : list stmt :=
  [ SExpr (EMethod "predictor" "delete_model" [] []);
    SExpr (EMethod "predictor" "delete_endpoint" [] [ ("delete_endpoint_config", ETrue) ]) ].

(** The opening markdown cell names the same code spans in the four notebooks. *)
Definition md_intro : cell :=
  Markdown [ "meta-textgeneration-llama-3-70b"; "ml.p4d.24xlarge"; "ml.inf2.48xlarge";
             "sagemaker"; "boto3"; "sagemaker" ].

(** *** Notebook 1: pre-optimized configuration, SageMaker-provided draft model *)

Definition nb1_display_metrics : list stmt :=
  [ SExpr (EMethod "model_builder" "display_benchmark_metrics" [] []) ].

Definition nb1_set_config : list stmt :=
  [ SExpr (EMethod "model_builder" "set_deployment_config" []
             [ ("config_name", EStr "lmi-optimized");
               ("instance_type", EStr "ml.g5.48xlarge") ]) ].

Definition nb1_get_config : list stmt :=
  [ SExpr (EMethod "model_builder" "get_deployment_config" [] []) ].

Definition nb1_build : list stmt :=
  [ SAssign "optimized_model" (EMethod "model_builder" "build" [] []) ].

Definition nb1 : notebook := {|
  nb_file := "source/llama3-70b-js-optimized-deployment---nb1---speculative-decoding-with-sagemaker-provided-draft-model.ipynb";
  cells :=
    [ md_intro;                                              (* 0 *)
      Code cell_install;                                     (* 1 *)
      Markdown [];                                           (* 2 *)
      Code cell_imports;                                     (* 3 *)
      Code cell_session;                                     (* 4 *)
      Code cell_schema;                                      (* 5 *)
      Markdown [ "meta-textgeneration-llama-3-70b"; "ModelBuilder" ];   (* 6 *)
      Code cell_model_builder;                               (* 7 *)
      Markdown [ "display_benchmark_metrics" ];              (* 8 *)
      Code nb1_display_metrics;                              (* 9 *)
      Markdown [ "lmi-optimized"; "ml.p4d.24xlarge"; "lmi-optimized" ]; (* 10 *)
      Code nb1_set_config;                                   (* 11 *)
      Markdown [ "get_deployment_config" ];                  (* 12 *)
      Code nb1_get_config;                                   (* 13 *)
      Markdown [ "Model" ];                                  (* 14 *)
      Code nb1_build;                                        (* 15 *)
      Code cell_deploy;                                      (* 16 *)
      Markdown [ "predict" ];                                (* 17 *)
      Code cell_predict;                                     (* 18 *)
      Code cell_cleanup ]                                    (* 19 *)
|}.

(** *** Notebook 2: speculative decoding with an open-source draft model *)

Definition nb2_download : list stmt :=
  [ SAssign "custom_draft_model_id" (EStr "meta-llama/Meta-Llama-3-8B");
    SAssign "hf_local_download_dir"
      (EBinOp (EMethod "Path" "cwd" [] []) Div (EStr "model_repo"));
    SExpr (EMethod "hf_local_download_dir" "mkdir" [] [ ("exist_ok", ETrue) ]);
    SExpr (EMethod "huggingface_hub" "snapshot_download" []
             [ ("repo_id", EName "custom_draft_model_id");
               ("revision", EStr "main");
               ("local_dir", EName "hf_local_download_dir");
               ("local_dir_use_symlinks", EConstant (CBool false)) ]) ].

Definition nb2_upload : list stmt :=
  [ SAssign "custom_draft_model_uri"
      (EMethod "sagemaker_session" "upload_data" []
         [ ("path", EMethod "hf_local_download_dir" "as_posix" [] []);
           ("bucket", EName "artifacts_bucket_name");
           ("key_prefix", EStr "spec-dec-custom-draft-model") ]) ].

(** [draft_uri = custom_draft_model_uri + "/"], then [draft_uri] to display it. *)
Definition nb2_draft_uri : list stmt :=
  [ SAssign "draft_uri" (EBinOp (EName "custom_draft_model_uri") Add (EStr "/"));
    SExpr (EName "draft_uri") ].

(** [!aws s3 ls {draft_uri} #verify model artifacts] *)
Definition nb2_list_artifacts : list stmt :=
  [ SShellEscape [ EStr "aws s3 ls "; EName "draft_uri"; EStr " #verify model artifacts" ] ].

Definition nb2_optimize : list stmt :=
  [ SAssign "optimized_model"
      (EMethod "model_builder" "optimize" []
         [ ("instance_type", EName "gpu_instance_type");
           ("accept_eula", ETrue);
           ("speculative_decoding_config",
            EDict [ (EStr "ModelSource", EName "draft_uri") ]) ]) ].

Definition nb2 : notebook := {|
  nb_file := "source/llama3-70b-js-optimized-deployment---nb2---speculative-decoding-with-open-source-draft-model.ipynb";
  cells :=
    [ md_intro;                                              (* 0 *)
      Code cell_install;                                     (* 1 *)
      Markdown [];                                           (* 2 *)
      Code cell_imports;                                     (* 3 *)
      Code cell_session;                                     (* 4 *)
      Code cell_schema;                                      (* 5 *)
      Markdown [ "meta-textgeneration-llama-3-70b" ];        (* 6 *)
      Code nb2_download;                                     (* 7 *)
      Code nb2_upload;                                       (* 8 *)
      Code nb2_draft_uri;                                    (* 9 *)
      Code nb2_list_artifacts;                               (* 10 *)
      Code cell_model_builder;                               (* 11 *)
      Markdown [];                                           (* 12 *)
      Code nb2_optimize;                                     (* 13 *)
      Markdown [];                                           (* 14 *)
      Code cell_deploy;                                      (* 15 *)
      Markdown [ "predict" ];                                (* 16 *)
      Code cell_predict;                                     (* 17 *)
      Code cell_cleanup ]                                    (* 18 *)
|}.

(** *** Notebook 3: AWQ quantization *)

Definition nb3_optimize : list stmt :=
  [ SAssign "optimized_model"
      (EMethod "model_builder" "optimize" []
         [ ("instance_type", EName "gpu_instance_type");
           ("accept_eula", ETrue);
           ("quantization_config",
            EDict [ (EStr "OverrideEnvironment",
                     EDict [ (EStr "OPTION_QUANTIZE", EStr "awq") ]) ]);
           ("output_path",
            EJoinedStr [ EStr "s3://"; EName "artifacts_bucket_name";
                         EStr "/awq-quantization/" ]) ]) ].

(** The first line carries the comment
    [# We can use a smaller instance type once quantized]. *)
Definition nb3_deploy : list stmt :=
  [ SAssign "quantized_instance_type" (EStr "ml.g5.12xlarge");
    SAssign "predictor"
      (EMethod "optimized_model" "deploy" []
         [ ("instance_type", EName "quantized_instance_type");
           ("accept_eula", ETrue) ]) ].

Definition nb3 : notebook := {|
  nb_file := "source/llama3-70b-js-optimized-deployment---nb3-quantize-the-model-using-AWQ.ipynb";
  cells :=
    [ md_intro;                                              (* 0 *)
      Code cell_install;                                     (* 1 *)
      Markdown [];                                           (* 2 *)
      Code cell_imports;                                     (* 3 *)
      Code cell_session;                                     (* 4 *)
      Code cell_schema;                                      (* 5 *)
      Markdown [ "meta-textgeneration-llama-3-70b" ];        (* 6 *)
      Code cell_model_builder;                               (* 7 *)
      Markdown [];                                           (* 8 *)
      Code nb3_optimize;                                     (* 9 *)
      Markdown [];                                           (* 10 *)
      Code nb3_deploy;                                       (* 11 *)
      Markdown [ "predict" ];                                (* 12 *)
      Code cell_predict;                                     (* 13 *)
      Code cell_cleanup ]                                    (* 14 *)
|}.

(** *** Notebook 4: compilation with the AWS Neuron compiler *)

Definition nb4_optimize : list stmt :=
  [ SAssign "optimized_model"
      (EMethod "model_builder" "optimize" []
         [ ("instance_type", EName "neuron_instance_type");
           ("accept_eula", ETrue);
           ("compilation_config",
            EDict [ (EStr "OverrideEnvironment",
                     EDict [ (EStr "OPTION_TENSOR_PARALLEL_DEGREE", EStr "24");
                             (EStr "OPTION_N_POSITIONS", EStr "8192");
                             (EStr "OPTION_DTYPE", EStr "fp16");
                             (EStr "OPTION_ROLLING_BATCH", EStr "auto");
                             (EStr "OPTION_MAX_ROLLING_BATCH_SIZE", EStr "4");
                             (EStr "OPTION_NEURON_OPTIMIZE_LEVEL", EStr "2") ]) ]);
           ("output_path",
            EJoinedStr [ EStr "s3://"; EName "artifacts_bucket_name"; EStr "/neuron/" ]) ]) ].

Definition nb4_deploy : list stmt :=
  [ SAssign "predictor"
      (EMethod "optimized_model" "deploy" []
         [ ("accept_eula", ETrue);
           ("model_data_download_timeout", EInt 3600);
           ("volume_size", EInt 512) ]) ].

Definition nb4 : notebook := {|
  nb_file := "source/llama3-70b-js-optimized-deployment---nb4---compile the model using the AWS Neuron Compiler .ipynb";
  cells :=
    [ md_intro;                                              (* 0 *)
      Code cell_install;                                     (* 1 *)
      Markdown [];                                           (* 2 *)
      Code cell_imports;                                     (* 3 *)
      Code cell_session;                                     (* 4 *)
      Code cell_schema;                                      (* 5 *)
      Markdown [ "meta-textgeneration-llama-3-70b" ];        (* 6 *)
      Code cell_model_builder_nb4;                           (* 7 *)
      Markdown [];                                           (* 8 *)
      Code nb4_optimize;                                     (* 9 *)
      Markdown [];                                           (* 10 *)
      Code nb4_deploy;                                       (* 11 *)
      Markdown [ "predict" ];                                (* 12 *)
      Code cell_predict;                                     (* 13 *)
      Code cell_cleanup ]                                    (* 14 *)
|}.

Definition notebooks : list notebook := [ nb1; nb2; nb3; nb4 ].

(** ** The infrastructure template

    [deployment/awsgenaimodelopt.template] is a JSON document; it is embedded
    as such, members in the order of the file. *)

Inductive json :=
| JNull
| JBool (b : bool)
| JNum (n : Z)
| JStr (s : string)
| JArr (elements : list json)
| JObj (members : list (string * json)).

Definition repository_url : string :=
  "https://github.com/aws-solutions-library-samples/guidance-for-generative-ai-model-optimization-using-amazon-sagemaker".

Definition template : json :=
  JObj [
    ("AWSTemplateFormatVersion", JStr "2010-09-09");
    ("Description",
     JStr "SO9526 Template to provision SageMaker Notebook and upload the code repository.");
    ("Parameters", JObj [
      ("SageMakerNotebookName", JObj [
        ("Default", JStr "aws-llm-apps-blog");
        ("Type", JStr "String");
        ("Description",
         JStr "Enter name of SageMaker Notebook instance. The notebook name must _not_ already exist in your AWS account/region.");
        ("MinLength", JNum 1);
        ("MaxLength", JNum 63);
        ("AllowedPattern", JStr "^[a-z0-9](-*[a-z0-9])*");
        ("ConstraintDescription",
         JStr "Must be lowercase or numbers with a length of 1-63 characters.") ]);
      ("SageMakerIAMRole", JObj [
        ("Description",
         JStr "Name of IAM role that will be created by this CloudFormation template. The role name must _not_ already exist in your AWS account.");
        ("Type", JStr "String");
        ("Default", JStr "LLMAppsBlogIAMRole") ]) ]);
    ("Resources", JObj [
      ("CodeRepository", JObj [
        ("Type", JStr "AWS::SageMaker::CodeRepository");
        ("Properties", JObj [
          ("GitConfig", JObj [ ("RepositoryUrl", JStr repository_url) ]) ]) ]);
      ("NotebookInstance", JObj [
        ("Type", JStr "AWS::SageMaker::NotebookInstance");
        ("Properties", JObj [
          ("NotebookInstanceName", JObj [ ("Ref", JStr "SageMakerNotebookName") ]);
          ("InstanceType", JStr "ml.t3.2xlarge");
          ("RoleArn", JObj [ ("Fn::GetAtt", JArr [ JStr "Role"; JStr "Arn" ]) ]);
          ("DefaultCodeRepository", JStr repository_url) ]) ]);
      ("Role", JObj [
        ("Type", JStr "AWS::IAM::Role");
        ("Properties", JObj [
          ("RoleName", JObj [ ("Ref", JStr "SageMakerIAMRole") ]);
          ("Policies", JArr [
            JObj [
              ("PolicyName", JStr "CustomNotebookAccess");
              ("PolicyDocument", JObj [
                ("Version", JStr "2012-10-17");
                ("Statement", JArr [
                  JObj [
                    ("Sid", JStr "ReadWriteFromECR");
                    ("Effect", JStr "Allow");
                    ("Action", JArr [
                      JStr "ecr:BatchGetImage";
                      JStr "ecr:BatchCheckLayerAvailability";
                      JStr "ecr:CompleteLayerUpload";
                      JStr "ecr:DescribeImages";
                      JStr "ecr:DescribeRepositories";
                      JStr "ecr:GetDownloadUrlForLayer";
                      JStr "ecr:InitiateLayerUpload";
                      JStr "ecr:ListImages";
                      JStr "ecr:PutImage";
                      JStr "ecr:UploadLayerPart";
                      JStr "ecr:CreateRepository";
                      JStr "ecr:GetAuthorizationToken";
                      JStr "ec2:DescribeAvailabilityZones" ]);
                    ("Resource", JArr [
                      JObj [ ("Fn::Sub",
                              JStr "arn:aws:ecr:${AWS::Region}:${AWS::AccountId}:repository/*") ] ])
                  ] ]) ]) ] ]);
          ("ManagedPolicyArns", JArr [
            JStr "arn:aws:iam::aws:policy/AmazonSageMakerFullAccess";
            JStr "arn:aws:iam::aws:policy/AWSCloudFormationReadOnlyAccess";
            JStr "arn:aws:iam::aws:policy/TranslateReadOnly" ]);
          ("AssumeRolePolicyDocument", JObj [
            ("Version", JStr "2012-10-17");
            ("Statement", JArr [
              JObj [
                ("Effect", JStr "Allow");
                ("Principal", JObj [
                  ("Service", JArr [ JStr "sagemaker.amazonaws.com" ]) ]);
                ("Action", JArr [ JStr "sts:AssumeRole" ]) ] ]) ]) ]) ]) ]);
    ("Outputs", JObj [
      ("SageMakerNotebookURL", JObj [
        ("Description", JStr "SageMaker Notebook Instance");
        ("Value", JObj [
          ("Fn::Join", JArr [
            JStr EmptyString;
            JArr [
              JObj [ ("Fn::Sub",
                      JStr "https://console.aws.amazon.com/sagemaker/home?region=${AWS::Region}#/notebook-instances/openNotebook/") ];
              JObj [ ("Fn::GetAtt", JArr [ JStr "NotebookInstance"; JStr "NotebookInstanceName" ]) ];
              JStr "?view=classic" ] ]) ]) ]) ])
  ].

(** ** Reading a call log *)

Definition method_of (ev : event) : option string :=
  match ev_callee ev with
  | Callable (VAttr _ m) => Some m
  | _ => None
  end.

Definition receiver_of (ev : event) : option value :=
  match ev_callee ev with
  | Callable (VAttr o _) => Some o
  | _ => None
  end.

Definition is_python_call (ev : event) : bool :=
  match ev_callee ev with
  | Callable _ => true
  | _ => false
  end.

Definition is_method (m : string) (ev : event) : bool :=
  match method_of ev with
  | Some m' => String.eqb m m'
  | None => false
  end.

Fixpoint assoc {A} (key : string) (l : list (string * A)) : option A :=
  match l with
  | [] => None
  | (k, a) :: l' => if String.eqb key k then Some a else assoc key l'
  end.

Definition kwarg (key : string) (ev : event) : option value :=
  assoc key (ev_kwargs ev).

Definition keywords_of (ev : event) : list string := map fst (ev_kwargs ev).

(** The calls of a method, each with its position in the log. *)
Definition calls_of (m : string) (tr : list event) : list (nat * event) :=
  filter (fun ie => is_method m (snd ie) = true) (imap (fun i ev => (i, ev)) tr).

(** What the (first) call of method [m] returned. *)
Definition result_of (m : string) (tr : list event) : option value :=
  match calls_of m tr with
  | (i, _) :: _ => Some (VResult i)
  | [] => None
  end.

(** [in_order stages tr]: the log has entries satisfying the stages one after
    the other (other entries may lie between them). *)
Fixpoint in_order (stages : list (event -> bool)) (tr : list event) : bool :=
  match stages with
  | [] => true
  | p :: stages' =>
      (fix scan (tr : list event) : bool :=
         match tr with
         | [] => false
         | ev :: tr' => if p ev then in_order stages' tr' else scan tr'
         end) tr
  end.

(** *** The steps the notebooks are said to go through *)

Definition is_install (ev : event) : bool :=
  match ev_callee ev, ev_args ev with
  | LineMagic magic, [VConst (CStr line)] =>
      String.eqb magic "pip" && String.prefix "install " line
  | _, _ => false
  end.

Definition is_schema_example (ev : event) : bool :=
  is_method "SchemaBuilder" ev && Nat.eqb (length (ev_args ev)) 2.

Definition published_model_id : string := "meta-textgeneration-llama-3-70b".

Definition is_model_handle (ev : event) : bool :=
  is_method "ModelBuilder" ev &&
  match kwarg "model" ev with
  | Some (VConst (CStr id)) => String.eqb id published_model_id
  | _ => false
  end.

Definition is_optimize : event -> bool := is_method "optimize".
Definition is_deploy : event -> bool := is_method "deploy".
Definition is_predict : event -> bool := is_method "predict".
Definition is_delete_model : event -> bool := is_method "delete_model".
Definition is_delete_endpoint : event -> bool := is_method "delete_endpoint".

(** The sequence every notebook is said to perform. *)
Definition optimize_pipeline : list (event -> bool) :=
  [ is_install; is_schema_example; is_model_handle; is_optimize; is_deploy;
    is_predict; is_delete_endpoint ].

(** The same without the optimization request. *)
Definition deploy_pipeline : list (event -> bool) :=
  [ is_install; is_schema_example; is_model_handle; is_deploy;
    is_predict; is_delete_endpoint ].

(** Notebook 1 selects a configuration prepared beforehand and builds it. *)
Definition preoptimized_pipeline : list (event -> bool) :=
  [ is_install; is_schema_example; is_model_handle;
    is_method "set_deployment_config"; is_method "build"; is_deploy;
    is_predict; is_delete_endpoint ].

(** *** Optimization requests and their configurations *)

Definition optimize_calls (nb : notebook) : list event :=
  filter (fun ev => is_optimize ev = true) (trace nb).

Definition has_output_path (ev : event) : bool :=
  match kwarg "output_path" ev with
  | Some _ => true
  | None => false
  end.

Definition ends_with (suffix s : string) : bool :=
  let n := String.length s in
  let m := String.length suffix in
  Nat.leb m n && String.eqb (String.substring (n - m) m s) suffix.

(** The configurations handed to an optimization request: its [*_config]
    keyword arguments. *)
Definition configs_of (ev : event) : list (string * value) :=
  filter (fun kv => ends_with "_config" (fst kv) = true) (ev_kwargs ev).

Definition optimization_configs (nb : notebook) : list (string * value) :=
  concat (map configs_of (optimize_calls nb)).

Definition is_str (v : value) : bool :=
  match v with
  | VConst (CStr _) => true
  | _ => false
  end.

Definition all_strings (kvs : list (value * value)) : bool :=
  forallb (fun kv => is_str (fst kv) && is_str (snd kv)) kvs.

(** [{"OverrideEnvironment": {key: value, ...}}] with strings only. *)
Definition is_environment_mapping (v : value) : bool :=
  match v with
  | VDict [ (VConst (CStr k), VDict kvs) ] =>
      String.eqb k "OverrideEnvironment" && all_strings kvs
  | _ => false
  end.

(** A location of uploaded artifacts: what an [upload_data] call returned,
    with a string appended. *)
Definition is_artifact_location (tr : list event) (v : value) : bool :=
  match v with
  | VBinOp (VResult n) Add (VConst (CStr _)) =>
      match tr !! n with
      | Some ev => is_method "upload_data" ev
      | None => false
      end
  | _ => false
  end.

(** [{"ModelSource": uri}] with [uri] such a location. *)
Definition is_draft_model_pointer (tr : list event) (v : value) : bool :=
  match v with
  | VDict [ (VConst (CStr k), uri) ] =>
      String.eqb k "ModelSource" && is_artifact_location tr uri
  | _ => false
  end.

(** *** Instance types *)

Definition instance_type_of (ev : event) : option value := kwarg "instance_type" ev.

Definition spans_of (c : cell) : list string :=
  match c with
  | Markdown spans => spans
  | Code _ => []
  end.

(** The instance types the prose of a notebook names: its code spans
    that start with [ml.]. *)
Definition instance_types_named (nb : notebook) : list string :=
  filter (fun s => String.prefix "ml." s = true) (concat (map spans_of (cells nb))).

Definition digit_of (a : ascii) : option nat :=
  let n := nat_of_ascii a in
  if Nat.leb 48 n && Nat.leb n 57 then Some (n - 48)%nat else None.

Fixpoint leading_number (acc : nat) (s : string) : nat * string :=
  match s with
  | String a s' =>
      match digit_of a with
      | Some d => leading_number (10 * acc + d) s'
      | None => (acc, s)
      end
  | EmptyString => (acc, s)
  end.

Fixpoint after_last_dot (s : string) (cur : string) : string :=
  match s with
  | String a s' =>
      if Ascii.eqb a "."%char then after_last_dot s' s' else after_last_dot s' cur
  | EmptyString => cur
  end.

(** The size of an instance type [ml.<family>.<n>xlarge] is [n]. *)
Definition xlarge_size (instance_type : string) : option nat :=
  match leading_number 0 (after_last_dot instance_type instance_type) with
  | (n, rest) => if String.eqb rest "xlarge" then Some n else None
  end.

(** *** Shape of the code *)

Definition code_of (c : cell) : list stmt :=
  match c with
  | Code source => source
  | Markdown _ => []
  end.

Definition code_cells (nb : notebook) : list (list stmt) :=
  omap (fun c => match c with Code source => Some source | Markdown _ => None end)
       (cells nb).

Definition statements (nb : notebook) : list stmt := concat (code_cells nb).

(** No [if], no [try]. *)
Definition straight_line (s : stmt) : bool :=
  match s with
  | SIf _ _ _ | STry _ _ => false
  | _ => true
  end.

Fixpoint try_free (s : stmt) : bool :=
  match s with
  | STry _ _ => false
  | SIf _ body orelse => forallb try_free body && forallb try_free orelse
  | _ => true
  end.

(** The last cell of the notebook, when it is a code cell, with its position. *)
Definition final_code_cell (nb : notebook) : option (nat * list stmt) :=
  match last (cells nb) with
  | Some (Code source) => Some (pred (length (cells nb)), source)
  | _ => None
  end.

(** *** Reading the template *)

Definition member (key : string) (j : json) : option json :=
  match j with
  | JObj members => assoc key members
  | _ => None
  end.

Fixpoint at_path (path : list string) (j : json) : option json :=
  match path with
  | [] => Some j
  | key :: path' =>
      match member key j with
      | Some j' => at_path path' j'
      | None => None
      end
  end.

Definition keys_of (j : json) : list string :=
  match j with
  | JObj members => map fst members
  | _ => []
  end.

Definition elements_of (j : option json) : list json :=
  match j with
  | Some (JArr elements) => elements
  | _ => []
  end.

Definition strings_of (js : list json) : list string :=
  omap (fun j => match j with JStr s => Some s | _ => None end) js.

Definition parameter (name : string) : option json :=
  at_path [ "Parameters"; name ] template.

Definition parameter_names : list string :=
  match member "Parameters" template with
  | Some ps => keys_of ps
  | None => []
  end.

(** A declaration validates non-emptiness and a pattern when it has a
    [MinLength] of at least 1 and an [AllowedPattern]. *)
Definition has_min_length (decl : json) : bool :=
  match member "MinLength" decl with
  | Some (JNum n) => 1 <=? n
  | _ => false
  end.

Definition has_allowed_pattern (decl : json) : bool :=
  match member "AllowedPattern" decl with
  | Some (JStr _) => true
  | _ => false
  end.

Definition validated (name : string) : bool :=
  match parameter name with
  | Some decl => has_min_length decl && has_allowed_pattern decl
  | None => false
  end.

Definition role_property (name : string) : option json :=
  at_path [ "Resources"; "Role"; "Properties"; name ] template.

(** The statements of the inline policies of the role. *)
Definition inline_statements : list json :=
  concat (map (fun policy => elements_of (at_path [ "PolicyDocument"; "Statement" ] policy))
              (elements_of (role_property "Policies"))).

(** The statements saying who may assume the role. *)
Definition assume_role_statements : list json :=
  elements_of (at_path [ "Resources"; "Role"; "Properties";
                         "AssumeRolePolicyDocument"; "Statement" ] template).

Definition actions_of (statement : json) : list string :=
  strings_of (elements_of (member "Action" statement)).

Definition resources_of (statement : json) : list json :=
  elements_of (member "Resource" statement).

Definition managed_policies : list string :=
  strings_of (elements_of (role_property "ManagedPolicyArns")).

Definition is_registry_action (action : string) : bool := String.prefix "ecr:" action.

Definition cloudformation_read_only : string :=
  "arn:aws:iam::aws:policy/AWSCloudFormationReadOnlyAccess".
Definition translate_read_only : string :=
  "arn:aws:iam::aws:policy/TranslateReadOnly".
Definition sagemaker_full_access : string :=
  "arn:aws:iam::aws:policy/AmazonSageMakerFullAccess".

Definition is_read_only_policy (arn : string) : bool :=
  String.eqb arn cloudformation_read_only || String.eqb arn translate_read_only.

Definition repository_arn : json :=
  JObj [ ("Fn::Sub", JStr "arn:aws:ecr:${AWS::Region}:${AWS::AccountId}:repository/*") ].

Definition is_wildcard (resource : json) : bool :=
  match resource with
  | JStr s => String.eqb s "*"
  | _ => false
  end.

(** *** Runs in which the platform fails *)

Section Platform.
Variable fails : nat -> event -> option string.

(** No Python call of the log failed. *)
Definition clean (tr : list event) : Prop :=
  forall i ev, tr !! i = Some ev -> is_python_call ev = true -> fails i ev = None.

(** The last entry of the log is a Python call that failed with [what],
    and it is the only one that failed. *)
Definition stopped_by (what : string) (tr : list event) : Prop :=
  exists tr' ev,
    tr = tr' ++ [ev] /\ clean tr' /\
    is_python_call ev = true /\ fails (length tr') ev = Some what.

(** [r] is what a computation gives on this platform, [r0] what it gives
    when nothing fails: either the platform failure came out as it was
    raised, the log stopping there, or the two are the same. *)
Definition agrees {A} (r r0 : outcome A * kernel) : Prop :=
  match fst r with
  | Raises (External what) =>
      calls (snd r) `prefix_of` calls (snd r0) /\ stopped_by what (calls (snd r))
  | _ => r = r0 /\ clean (calls (snd r))
  end.

Definition tracks {A} (m m0 : M A) : Prop :=
  forall k, clean (calls k) -> agrees (m k) (m0 k).
End Platform.

(** A computation only ever appends to the log. *)
Definition grows {A} (m : M A) : Prop :=
  forall k, calls k `prefix_of` calls (snd (m k)).

(** *** Data flow and order between calls *)

(** Every call of [dst] is made on what the call of [src] returned, and
    there is such a call. *)
Definition fed_by (dst src : string) (tr : list event) : bool :=
  match result_of src tr, calls_of dst tr with
  | Some (VResult i), (_ :: _) as dsts =>
      forallb (fun ie => match receiver_of (snd ie) with
                         | Some (VResult j) => Nat.eqb i j
                         | _ => false
                         end) dsts
  | _, _ => false
  end.

(** No entry satisfying [q] comes after an entry satisfying [p]. *)
Fixpoint never_after (p q : event -> bool) (tr : list event) : bool :=
  match tr with
  | [] => true
  | ev :: tr' =>
      (if p ev then forallb (fun ev' => negb (q ev')) tr' else true)
      && never_after p q tr'
  end.

Definition method_call (c : nat) (receiver : value) (method : string)
    (args : list value) (kwargs : list (string * value)) : event :=
  {| ev_cell := c; ev_callee := Callable (VAttr receiver method);
     ev_args := args; ev_kwargs := kwargs |}.

(** The value of [sample_input]. *)
Definition sample_input_value : value :=
  VDict [ (VStr "inputs", VStr "Hello, I'm a language model,");
          (VStr "parameters",
           VDict [ (VStr "max_new_tokens", VConst (CInt 128));
                   (VStr "top_p", VConst (CDec 9 (-1)));
                   (VStr "temperature", VConst (CDec 6 (-1))) ]) ].

(** The value of the compilation configuration of notebook 4. *)
Definition neuron_compilation_config : value :=
  VDict [ (VStr "OverrideEnvironment",
           VDict [ (VStr "OPTION_TENSOR_PARALLEL_DEGREE", VStr "24");
                   (VStr "OPTION_N_POSITIONS", VStr "8192");
                   (VStr "OPTION_DTYPE", VStr "fp16");
                   (VStr "OPTION_ROLLING_BATCH", VStr "auto");
                   (VStr "OPTION_MAX_ROLLING_BATCH_SIZE", VStr "4");
                   (VStr "OPTION_NEURON_OPTIMIZE_LEVEL", VStr "2") ]) ].

(** A platform on which optimization requests fail for lack of quota. *)
Definition quota_exhausted : nat -> event -> option string :=
  fun _ ev => if is_optimize ev then Some "ResourceLimitExceeded" else None.

(** A cell that wraps the request in [try] swallows the failure: no notebook
    has one; it shows what [try_free] rules out. *)
Definition guarded_notebook : notebook := {|
  nb_file := "guarded";
  cells := [ Code cell_imports; Code cell_session; Code cell_schema;
             Code cell_model_builder;
             Code [ STry nb3_optimize [ SAssign "optimized_model" (EConstant CNone) ] ] ]
|}.

(** *** Further readings of a log *)

(** The positions of the entries satisfying [p]. *)
Fixpoint positions_from (p : event -> bool) (i : nat) (tr : list event) : list nat :=
  match tr with
  | [] => []
  | ev :: tr' => (if p ev then [i] else []) ++ positions_from p (S i) tr'
  end.

Definition positions (p : event -> bool) (tr : list event) : list nat :=
  positions_from p 0 tr.

(** The (first) call of method [m]. *)
Definition the_call (m : string) (tr : list event) : option event :=
  match calls_of m tr with
  | (_, ev) :: _ => Some ev
  | [] => None
  end.

(** The instance types a notebook hands to the platform, in the order of
    the calls that carry them. *)
Definition instance_types_passed (nb : notebook) : list value :=
  omap instance_type_of (trace nb).

(** The value of [sample_output]. *)
Definition sample_output_value : value :=
  VList [ VDict [ (VStr "generated_text",
                   VStr "Hello, I'm a language model, and I'm here to help you with your English.") ] ].

(** A platform on which the endpoint answers every invocation with an error. *)
Definition predict_fails : nat -> event -> option string :=
  fun _ ev => if is_predict ev then Some "ModelError" else None.

(** The value of keyword [key] in the (first) call of method [m]. *)
Definition call_kwarg (m key : string) (tr : list event) : option value :=
  match the_call m tr with
  | Some ev => kwarg key ev
  | None => None
  end.

(** What the (first) call of method [m] was made on. *)
Definition call_receiver (m : string) (tr : list event) : option value :=
  match the_call m tr with
  | Some ev => receiver_of ev
  | None => None
  end.

Definition is_shell (ev : event) : bool :=
  match ev_callee ev with
  | Shell => true
  | _ => false
  end.

Definition accepts_eula (ev : event) : bool :=
  match kwarg "accept_eula" ev with
  | Some (VConst (CBool true)) => true
  | _ => false
  end.

(** *** References and intrinsic functions of the template *)

(** The names under [Ref], the pairs under [Fn::GetAtt] and the strings under
    [Fn::Sub], anywhere in a document. *)
Fixpoint refs_of (j : json) : list string :=
  match j with
  | JObj members =>
      match members with
      | [ (key, JStr name) ] => if String.eqb key "Ref" then [ name ] else []
      | _ => concat (map (fun kv => refs_of (snd kv)) members)
      end
  | JArr elements => concat (map refs_of elements)
  | _ => []
  end.

Fixpoint getatts_of (j : json) : list (string * string) :=
  match j with
  | JObj members =>
      match members with
      | [ (key, JArr [ JStr resource; JStr attr ]) ] =>
          if String.eqb key "Fn::GetAtt" then [ (resource, attr) ] else []
      | _ => concat (map (fun kv => getatts_of (snd kv)) members)
      end
  | JArr elements => concat (map getatts_of elements)
  | _ => []
  end.

Fixpoint subs_of (j : json) : list string :=
  match j with
  | JObj members =>
      match members with
      | [ (key, JStr text) ] => if String.eqb key "Fn::Sub" then [ text ] else []
      | _ => concat (map (fun kv => subs_of (snd kv)) members)
      end
  | JArr elements => concat (map subs_of elements)
  | _ => []
  end.

Definition resource_names : list string :=
  match member "Resources" template with
  | Some rs => keys_of rs
  | None => []
  end.

(** The names between [${] and [}] in the text of an [Fn::Sub]. *)
Fixpoint placeholders (pending : option string) (text : string) : list string :=
  match pending, text with
  | None, EmptyString => []
  | None, String "$" (String "{" rest) => placeholders (Some EmptyString) rest
  | None, String _ rest => placeholders None rest
  | Some _, EmptyString => []
  | Some name, String "}" rest => name :: placeholders None rest
  | Some name, String c rest => placeholders (Some (name +:+ String c EmptyString)) rest
  end.

(** [Fn::Sub]: every [${name}] is replaced by the value of [name]; a name
    without value, or a [${] left open, gives no result.  (Escapes [${!x}]
    and attribute placeholders [${Resource.Attr}] do not occur in the
    template and are not treated.) *)
Fixpoint substitute (value_of : string -> option string) (pending : option string)
    (text : string) {struct text} : option string :=
  match pending, text with
  | None, EmptyString => Some EmptyString
  | None, String "$" (String "{" rest) => substitute value_of (Some EmptyString) rest
  | None, String c rest => option_map (String c) (substitute value_of None rest)
  | Some _, EmptyString => None
  | Some name, String "}" rest =>
      match value_of name with
      | Some v => option_map (String.append v) (substitute value_of None rest)
      | None => None
      end
  | Some name, String c rest =>
      substitute value_of (Some (name +:+ String c EmptyString)) rest
  end.

(** What a deployment of the template fixes: the region and the account of
    the stack, the values given to the parameters, and the attributes the
    services report for the resources created. *)
Record deployment := {
  region : string;
  account : string;
  parameter_value : string -> option string;
  attribute : string -> string -> option string
}.

Definition pseudo_parameters : list string := [ "AWS::Region"; "AWS::AccountId" ].

(** [Ref name]: the value of a pseudo parameter (the names are reserved), or
    of a parameter. *)
Definition ref_value (d : deployment) (name : string) : option string :=
  if String.eqb name "AWS::Region" then Some (region d)
  else if String.eqb name "AWS::AccountId" then Some (account d)
  else parameter_value d name.

(** The string a value of the template stands for in a deployment. *)
Fixpoint resolve (d : deployment) (j : json) {struct j} : option string :=
  match j with
  | JStr s => Some s
  | JObj [ (key, JStr arg) ] =>
      if String.eqb key "Ref" then ref_value d arg
      else if String.eqb key "Fn::Sub" then substitute (ref_value d) None arg
      else None
  | JObj [ (key, JArr [ JStr a; JStr b ]) ] =>
      if String.eqb key "Fn::GetAtt" then attribute d a b else None
  | JObj [ (key, JArr [ JStr separator; JArr parts ]) ] =>
      if String.eqb key "Fn::Join" then
        option_map (String.concat separator)
          ((fix all (js : list json) : option (list string) :=
              match js with
              | [] => Some []
              | j' :: js' =>
                  match resolve d j', all js' with
                  | Some s, Some ss => Some (s :: ss)
                  | _, _ => None
                  end
              end) parts)
      else None
  | _ => None
  end.

(** The value of an output of the stack. *)
Definition stack_output (d : deployment) (name : string) : option string :=
  match at_path [ "Outputs"; name; "Value" ] template with
  | Some v => resolve d v
  | None => None
  end.

(** A deployment in [eu-west-1] with the default parameter values. *)
Definition example_deployment : deployment := {|
  region := "eu-west-1";
  account := "123456789012";
  parameter_value := fun name =>
    if String.eqb name "SageMakerNotebookName" then Some "aws-llm-apps-blog"
    else if String.eqb name "SageMakerIAMRole" then Some "LLMAppsBlogIAMRole"
    else None;
  attribute := fun resource attr =>
    if String.eqb resource "NotebookInstance" && String.eqb attr "NotebookInstanceName"
    then Some "aws-llm-apps-blog" else None
|}.

(** *** Validation of parameter values *)

(** The regular expressions an [AllowedPattern] is written in, as far as the
    template uses them: character classes, groups, alternatives, repetition. *)
Inductive regex :=
| RNone
| REps
| RClass (ranges : list (ascii * ascii))
| RCat (r1 r2 : regex)
| RAlt (r1 r2 : regex)
| RStar (r : regex).

(** The items of a character class, up to the closing bracket. *)
Fixpoint parse_class (s : list ascii) : option (list (ascii * ascii) * list ascii) :=
  match s with
  | [] => None
  | "]"%char :: rest => Some ([], rest)
  | lo :: "-"%char :: hi :: rest =>
      if Ascii.eqb hi "]" then Some ([ (lo, lo); ("-"%char, "-"%char) ], rest)
      else match parse_class rest with
           | Some (ranges, rest') => Some ((lo, hi) :: ranges, rest')
           | None => None
           end
  | c :: rest =>
      match parse_class rest with
      | Some (ranges, rest') => Some ((c, c) :: ranges, rest')
      | None => None
      end
  end.

Definition is_special (c : ascii) : bool :=
  existsb (Ascii.eqb c) (list_ascii_of_string "()[]|*+?^$.\{}").

Definition postfix (r : regex) (s : list ascii) : regex * list ascii :=
  match s with
  | "*"%char :: rest => (RStar r, rest)
  | "+"%char :: rest => (RCat r (RStar r), rest)
  | "?"%char :: rest => (RAlt REps r, rest)
  | _ => (r, s)
  end.

Definition cat (r1 r2 : regex) : regex :=
  match r2 with
  | REps => r1
  | _ => RCat r1 r2
  end.

Fixpoint parse_alt (fuel : nat) (s : list ascii) {struct fuel}
    : option (regex * list ascii) :=
  match fuel with
  | O => None
  | S fuel' =>
      match parse_seq fuel' s with
      | Some (r, "|"%char :: rest) =>
          match parse_alt fuel' rest with
          | Some (r', rest') => Some (RAlt r r', rest')
          | None => None
          end
      | other => other
      end
  end
with parse_seq (fuel : nat) (s : list ascii) {struct fuel}
    : option (regex * list ascii) :=
  match fuel with
  | O => None
  | S fuel' =>
      match s with
      | [] => Some (REps, s)
      | c :: _ =>
          if Ascii.eqb c ")" || Ascii.eqb c "|" || Ascii.eqb c "$" then Some (REps, s)
          else match parse_atom fuel' s with
               | Some (r, rest) =>
                   let (r', rest') := postfix r rest in
                   match parse_seq fuel' rest' with
                   | Some (r'', rest'') => Some (cat r' r'', rest'')
                   | None => None
                   end
               | None => None
               end
      end
  end
with parse_atom (fuel : nat) (s : list ascii) {struct fuel}
    : option (regex * list ascii) :=
  match fuel with
  | O => None
  | S fuel' =>
      match s with
      | [] => None
      | "["%char :: "^"%char :: _ => None
      | "["%char :: rest =>
          match parse_class rest with
          | Some (ranges, rest') => Some (RClass ranges, rest')
          | None => None
          end
      | "("%char :: rest =>
          match parse_alt fuel' rest with
          | Some (r, ")"%char :: rest') => Some (r, rest')
          | _ => None
          end
      | c :: rest => if is_special c then None else Some (RClass [ (c, c) ], rest)
      end
  end.

(** The expression of a pattern.  The whole value has to match, so that a
    leading [^] and a trailing [$] add nothing. *)
Definition parse_pattern (pattern : string) : option regex :=
  let s := list_ascii_of_string pattern in
  let s := match s with "^"%char :: s' => s' | _ => s end in
  match parse_alt (3 * length s + 3) s with
  | Some (r, []) => Some r
  | Some (r, [ "$"%char ]) => Some r
  | _ => None
  end.

Definition in_class (c : ascii) (ranges : list (ascii * ascii)) : bool :=
  existsb (fun range => Nat.leb (nat_of_ascii (fst range)) (nat_of_ascii c)
                        && Nat.leb (nat_of_ascii c) (nat_of_ascii (snd range)))
          ranges.

(** The strings an expression stands for. *)
Inductive lang : regex -> list ascii -> Prop :=
| lang_eps : lang REps []
| lang_class ranges c : in_class c ranges = true -> lang (RClass ranges) [ c ]
| lang_cat r1 r2 s1 s2 : lang r1 s1 -> lang r2 s2 -> lang (RCat r1 r2) (s1 ++ s2)
| lang_alt_l r1 r2 s : lang r1 s -> lang (RAlt r1 r2) s
| lang_alt_r r1 r2 s : lang r2 s -> lang (RAlt r1 r2) s
| lang_star_nil r : lang (RStar r) []
| lang_star_app r s1 s2 : lang r s1 -> lang (RStar r) s2 -> lang (RStar r) (s1 ++ s2).

(** Matching by derivatives. *)
Fixpoint nullable (r : regex) : bool :=
  match r with
  | RNone => false
  | REps => true
  | RClass _ => false
  | RCat r1 r2 => nullable r1 && nullable r2
  | RAlt r1 r2 => nullable r1 || nullable r2
  | RStar _ => true
  end.

Fixpoint deriv (c : ascii) (r : regex) : regex :=
  match r with
  | RNone => RNone
  | REps => RNone
  | RClass ranges => if in_class c ranges then REps else RNone
  | RCat r1 r2 =>
      if nullable r1 then RAlt (RCat (deriv c r1) r2) (deriv c r2)
      else RCat (deriv c r1) r2
  | RAlt r1 r2 => RAlt (deriv c r1) (deriv c r2)
  | RStar r1 => RCat (deriv c r1) (RStar r1)
  end.

Fixpoint matches (r : regex) (s : list ascii) : bool :=
  match s with
  | [] => nullable r
  | c :: s' => matches (deriv c r) s'
  end.

(** A value is accepted for a parameter when its length is within
    [MinLength] and [MaxLength] and the whole of it matches
    [AllowedPattern], each as far as the declaration has it. *)
Definition value_accepted (decl : json) (v : string) : bool :=
  let n := Z.of_nat (String.length v) in
  match member "MinLength" decl with
  | Some (JNum m) => m <=? n
  | _ => true
  end
  && match member "MaxLength" decl with
     | Some (JNum m) => n <=? m
     | _ => true
     end
  && match member "AllowedPattern" decl with
     | Some (JStr pattern) =>
         match parse_pattern pattern with
         | Some r => matches r (list_ascii_of_string v)
         | None => false
         end
     | _ => true
     end.

Definition accepted (name v : string) : bool :=
  match parameter name with
  | Some decl => value_accepted decl v
  | None => false
  end.

Definition is_lower_or_digit (c : ascii) : bool :=
  let n := nat_of_ascii c in
  (Nat.leb 97 n && Nat.leb n 122) || (Nat.leb 48 n && Nat.leb n 57).

Definition is_hyphen (c : ascii) : bool := Ascii.eqb c "-".

(** Lower-case letters, digits and hyphens, with no hyphen at either end. *)
Definition well_formed_name (s : list ascii) : bool :=
  match s with
  | [] => false
  | c :: s' =>
      is_lower_or_digit c
      && forallb (fun c' => is_lower_or_digit c' || is_hyphen c') s'
      && match last s' with
         | Some d => is_lower_or_digit d
         | None => true
         end
  end.

(** The expression of the pattern of the notebook name, and its parts. *)
Definition name_class : list (ascii * ascii) :=
  [ ("a"%char, "z"%char); ("0"%char, "9"%char) ].
Definition hyphen_class : list (ascii * ascii) := [ ("-"%char, "-"%char) ].
Definition block : regex := RCat (RStar (RClass hyphen_class)) (RClass name_class).
Definition name_regex : regex := RCat (RClass name_class) (RStar block).

Definition name_char (c : ascii) : bool := is_lower_or_digit c || is_hyphen c.

Definition tail_ok (s : list ascii) : bool :=
  forallb name_char s
  && match last s with
     | Some d => is_lower_or_digit d
     | None => true
     end.

(** * Properties *)

(** ** Ordered occurrence in a log *)

Lemma in_order_weaken stages :
  forall tr ev, in_order stages tr = true -> in_order stages (ev :: tr) = true.
Proof.
  induction stages as [|p stages IH]; [reflexivity|].
  assert (Htail : forall tr, in_order (p :: stages) tr = true -> in_order stages tr = true).
  { induction tr as [|ev' tr IHtr]; [discriminate|].
    cbn. destruct (p ev'); intros H; apply IH; auto. }
  intros tr ev H. cbn. destruct (p ev); [|exact H].
  apply Htail, H.
Qed.

Lemma in_order_tail p stages tr :
  in_order (p :: stages) tr = true -> in_order stages tr = true.
Proof.
  induction tr as [|ev tr IH]; [discriminate|].
  cbn. destruct (p ev); intros H; apply in_order_weaken; auto.
Qed.

(** [in_order] decides that the stages are met along a sublist of the log. *)
Lemma in_order_sublist stages tr :
  in_order stages tr = true <->
  exists evs, evs `sublist_of` tr /\ Forall2 (fun p ev => p ev = true) stages evs.
Proof.
  split.
  - revert tr. induction stages as [|p stages IH]; intros tr H.
    + exists []. split; [apply sublist_nil_l | constructor].
    + induction tr as [|ev tr IHtr]; [discriminate|].
      cbn in H. destruct (p ev) eqn:Hp.
      * destruct (IH _ H) as (evs & Hsub & Hall).
        exists (ev :: evs). split; [by apply sublist_skip | by constructor].
      * destruct (IHtr H) as (evs & Hsub & Hall).
        exists evs. split; [by apply sublist_cons | done].
  - intros (evs & Hsub & Hall). revert stages Hall.
    induction Hsub as [|ev l1 l2 _ IH|ev l1 l2 _ IH]; intros stages Hall.
    + inversion Hall; subst. reflexivity.
    + inversion Hall as [|p ? stages' ? Hp Hall']; subst.
      cbn. rewrite Hp. by apply IH.
    + apply in_order_weaken. by apply IH.
Qed.

(** ** Induction over the syntax *)

Section ExprInd.
Variable P : expr -> Prop.
Hypothesis HName : forall id, P (EName id).
Hypothesis HConstant : forall c, P (EConstant c).
Hypothesis HJoinedStr : forall values, Forall P values -> P (EJoinedStr values).
Hypothesis HAttribute : forall e attr, P e -> P (EAttribute e attr).
Hypothesis HCall : forall func args keywords,
  P func -> Forall P args -> Forall (fun kw => P (snd kw)) keywords ->
  P (ECall func args keywords).
Hypothesis HDict : forall items,
  Forall (fun it => P (fst it) /\ P (snd it)) items -> P (EDict items).
Hypothesis HList : forall elts, Forall P elts -> P (EList elts).
Hypothesis HBinOp : forall l op r, P l -> P r -> P (EBinOp l op r).

Fixpoint expr_ind' (e : expr) : P e :=
  let all :=
    fix all (es : list expr) : Forall P es :=
      match es with
      | [] => @List.Forall_nil _ P
      | e' :: es' => @List.Forall_cons _ P e' es' (expr_ind' e') (all es')
      end in
  match e with
  | EName id => HName id
  | EConstant c => HConstant c
  | EJoinedStr values => HJoinedStr values (all values)
  | EAttribute e' attr => HAttribute e' attr (expr_ind' e')
  | ECall func args keywords =>
      HCall func args keywords (expr_ind' func) (all args)
        ((fix allkw (kws : list (string * expr)) : Forall (fun kw => P (snd kw)) kws :=
            match kws with
            | [] => @List.Forall_nil _ _
            | kw :: kws' => @List.Forall_cons _ _ kw kws' (expr_ind' (snd kw)) (allkw kws')
            end) keywords)
  | EDict items =>
      HDict items
        ((fix allit (its : list (expr * expr))
            : Forall (fun it => P (fst it) /\ P (snd it)) its :=
            match its with
            | [] => @List.Forall_nil _ _
            | it :: its' =>
                @List.Forall_cons _ _ it its'
                  (conj (expr_ind' (fst it)) (expr_ind' (snd it))) (allit its')
            end) items)
  | EList elts => HList elts (all elts)
  | EBinOp l op r => HBinOp l op r (expr_ind' l) (expr_ind' r)
  end.
End ExprInd.

Section StmtInd.
Variable P : stmt -> Prop.
Hypothesis HExpr : forall e, P (SExpr e).
Hypothesis HAssign : forall target e, P (SAssign target e).
Hypothesis HImport : forall name, P (SImport name).
Hypothesis HImportFrom : forall module name, P (SImportFrom module name).
Hypothesis HIf : forall test body orelse,
  Forall P body -> Forall P orelse -> P (SIf test body orelse).
Hypothesis HTry : forall body handler,
  Forall P body -> Forall P handler -> P (STry body handler).
Hypothesis HLineMagic : forall magic line, P (SLineMagic magic line).
Hypothesis HShellEscape : forall parts, P (SShellEscape parts).

Fixpoint stmt_ind' (s : stmt) : P s :=
  let all :=
    fix all (ss : list stmt) : Forall P ss :=
      match ss with
      | [] => @List.Forall_nil _ P
      | s' :: ss' => @List.Forall_cons _ P s' ss' (stmt_ind' s') (all ss')
      end in
  match s with
  | SExpr e => HExpr e
  | SAssign target e => HAssign target e
  | SImport name => HImport name
  | SImportFrom module name => HImportFrom module name
  | SIf test body orelse => HIf test body orelse (all body) (all orelse)
  | STry body handler => HTry body handler (all body) (all handler)
  | SLineMagic magic line => HLineMagic magic line
  | SShellEscape parts => HShellEscape parts
  end.
End StmtInd.

(** ** The log only grows *)

Section Grows.
Variable fails : nat -> event -> option string.

Lemma grows_ret {A} (a : A) : grows (ret a).
Proof. intros k. reflexivity. Qed.

Lemma grows_bind {A B} (m : M A) (f : A -> M B) :
  grows m -> (forall a, grows (f a)) -> grows (bind m f).
Proof.
  intros Hm Hf k. unfold bind. specialize (Hm k).
  destruct (m k) as [[a|x] k1]; cbn in *; [|exact Hm].
  etrans; [exact Hm | apply Hf].
Qed.

Lemma grows_catch {A} (m h : M A) : grows m -> grows h -> grows (catch m h).
Proof.
  intros Hm Hh k. unfold catch. specialize (Hm k).
  destruct (m k) as [[a|x] k1]; cbn in *; [exact Hm|].
  etrans; [exact Hm | apply Hh].
Qed.

Lemma grows_load_name id : grows (load_name id).
Proof. intros k. unfold load_name. destruct (ns k !! id); reflexivity. Qed.

Lemma grows_store_name id v : grows (store_name id v).
Proof. intros k. reflexivity. Qed.

Lemma grows_log_event ev : grows (log_event ev).
Proof. intros k. cbn. by apply prefix_app_r. Qed.

Lemma grows_call c f vs kvs : grows (call fails c f vs kvs).
Proof.
  apply grows_bind; [apply grows_log_event|].
  intros n. destruct (fails n _); [intros k; reflexivity | apply grows_ret].
Qed.

Lemma grows_escape c f vs : grows (escape c f vs).
Proof. apply grows_bind; [apply grows_log_event | intros; apply grows_ret]. Qed.

Lemma grows_mapM {A B} (f : A -> M B) l :
  Forall (fun a => grows (f a)) l -> grows (mapM f l).
Proof.
  induction 1 as [|a l Ha _ IH]; cbn [mapM]; [apply grows_ret|].
  apply grows_bind; [exact Ha|]. intros b.
  apply grows_bind; [exact IH|]. intros bs. apply grows_ret.
Qed.

Lemma grows_iterM {A} (f : A -> M unit) l :
  Forall (fun a => grows (f a)) l -> grows (iterM f l).
Proof.
  induction 1 as [|a l Ha _ IH]; cbn [iterM]; [apply grows_ret|].
  apply grows_bind; [exact Ha | intros _; exact IH].
Qed.

Lemma eval_grows c e : grows (eval fails c e).
Proof.
  induction e as [id|k|values IH|e attr IH|func args keywords IHf IHa IHk
                  |items IH|elts IH|l op r IHl IHr] using expr_ind'; cbn [eval].
  - apply grows_load_name.
  - apply grows_ret.
  - apply grows_bind; [by apply grows_mapM | intros; apply grows_ret].
  - apply grows_bind; [exact IH | intros; apply grows_ret].
  - apply grows_bind; [exact IHf|]. intros f.
    apply grows_bind; [by apply grows_mapM|]. intros vs.
    apply grows_bind; [|intros; apply grows_call].
    apply grows_mapM. eapply Forall_impl; [exact IHk|].
    intros kw Hkw. apply grows_bind; [exact Hkw | intros; apply grows_ret].
  - apply grows_bind; [|intros; apply grows_ret].
    apply grows_mapM. eapply Forall_impl; [exact IH|].
    intros it [Hk Hv]. apply grows_bind; [exact Hk|]. intros vk.
    apply grows_bind; [exact Hv | intros; apply grows_ret].
  - apply grows_bind; [by apply grows_mapM | intros; apply grows_ret].
  - apply grows_bind; [exact IHl|]. intros vl.
    apply grows_bind; [exact IHr | intros; apply grows_ret].
Qed.

Lemma exec_grows c s : grows (exec fails c s).
Proof.
  induction s as [e|target e|name|module name|test body orelse IHb IHo
                  |body handler IHb IHh|magic line|parts] using stmt_ind';
    cbn [exec].
  - apply grows_bind; [apply eval_grows | intros; apply grows_ret].
  - apply grows_bind; [apply eval_grows | intros; apply grows_store_name].
  - apply grows_store_name.
  - apply grows_store_name.
  - apply grows_bind; [apply eval_grows|]. intros v.
    destruct (truthy v); by apply grows_iterM.
  - apply grows_catch; by apply grows_iterM.
  - apply grows_escape.
  - apply grows_bind; [|intros; apply grows_escape].
    apply grows_mapM, Forall_forall. intros e _. apply eval_grows.
Qed.

Lemma run_cells_grows cs : forall c, grows (run_cells fails c cs).
Proof.
  induction cs as [|[spans|source] cs IH]; intros c; cbn [run_cells].
  - apply grows_ret.
  - apply IH.
  - apply grows_bind; [|intros; apply IH].
    apply grows_iterM, Forall_forall. intros s _. apply exec_grows.
Qed.
End Grows.

(** ** What a failing platform does to a run *)

Section Tracks.
Variable fails : nat -> event -> option string.

Lemma clean_nil : clean fails [].
Proof. intros i ev H. discriminate. Qed.

Lemma clean_snoc tr ev :
  clean fails tr ->
  (is_python_call ev = true -> fails (length tr) ev = None) ->
  clean fails (tr ++ [ev]).
Proof.
  intros Htr Hev i ev' Hi Hpy.
  destruct (decide (i < length tr)%nat) as [Hlt|Hge].
  - rewrite lookup_app_l in Hi by done. by eapply Htr.
  - rewrite lookup_app_r in Hi by lia.
    destruct (i - length tr)%nat as [|j] eqn:Hj; [|destruct j; discriminate].
    cbn in Hi. inversion Hi; subst ev'.
    replace i with (length tr) by lia. by apply Hev.
Qed.

Lemma tracks_ret {A} (a : A) : tracks fails (ret a) (ret a).
Proof. intros k Hk. split; [reflexivity | exact Hk]. Qed.

Lemma tracks_bind {A B} (m m0 : M A) (f f0 : A -> M B) :
  tracks fails m m0 ->
  (forall a, tracks fails (f a) (f0 a)) ->
  (forall a, grows (f0 a)) ->
  tracks fails (bind m f) (bind m0 f0).
Proof.
  intros Hm Hf Hg k Hk. specialize (Hm k Hk). unfold agrees, bind in *.
  destruct (m k) as [o k1], (m0 k) as [o0 k0]. cbn in Hm.
  destruct o as [a|[name|what]].
  - destruct Hm as [Heq Hc]. inversion Heq; subst. by apply Hf.
  - destruct Hm as [Heq Hc]. inversion Heq; subst. by split.
  - destruct Hm as [Hpre Hstop]. cbn. split; [|exact Hstop].
    destruct o0 as [a0|x0]; cbn; [|exact Hpre].
    etrans; [exact Hpre | apply Hg].
Qed.

Lemma tracks_load_name id : tracks fails (load_name id) (load_name id).
Proof.
  intros k Hk. unfold agrees, load_name.
  destruct (ns k !! id); cbn; by split.
Qed.

Lemma tracks_store_name id v : tracks fails (store_name id v) (store_name id v).
Proof. intros k Hk. by split. Qed.

Lemma tracks_call c f vs kvs :
  tracks fails (call fails c f vs kvs) (call never c f vs kvs).
Proof.
  intros k Hk. unfold agrees, call, bind, log_event, never. cbn.
  destruct (fails _ _) as [what|] eqn:Hfail; cbn.
  - split; [reflexivity|].
    eexists (calls k), _. by repeat split.
  - split; [reflexivity|]. apply clean_snoc; [exact Hk | intros _; exact Hfail].
Qed.

Lemma tracks_escape c f vs :
  match f with Callable _ => False | _ => True end ->
  tracks fails (escape c f vs) (escape c f vs).
Proof.
  intros Hf k Hk. split; [reflexivity|]. cbn.
  apply clean_snoc; [exact Hk|]. unfold is_python_call. cbn.
  destruct f; [done | discriminate | discriminate].
Qed.

Lemma tracks_mapM {A B} (f f0 : A -> M B) l :
  Forall (fun a => tracks fails (f a) (f0 a) /\ grows (f0 a)) l ->
  tracks fails (mapM f l) (mapM f0 l).
Proof.
  induction 1 as [|a l [Ha Hg] Hl IH]; cbn [mapM]; [apply tracks_ret|].
  apply tracks_bind; [exact Ha| |].
  - intros b. apply tracks_bind; [exact IH| |]; intros bs.
    + apply tracks_ret.
    + apply grows_ret.
  - intros b. apply grows_bind; [|intros; apply grows_ret].
    apply grows_mapM. eapply Forall_impl; [exact Hl|]. by intros ? [_ ?].
Qed.

Lemma tracks_iterM {A} (f f0 : A -> M unit) l :
  Forall (fun a => tracks fails (f a) (f0 a) /\ grows (f0 a)) l ->
  tracks fails (iterM f l) (iterM f0 l).
Proof.
  induction 1 as [|a l [Ha Hg] Hl IH]; cbn [iterM]; [apply tracks_ret|].
  apply tracks_bind; [exact Ha | intros _; exact IH|].
  intros _. apply grows_iterM. eapply Forall_impl; [exact Hl|]. by intros ? [_ ?].
Qed.

Lemma eval_tracks c e : tracks fails (eval fails c e) (eval never c e).
Proof.
  induction e as [id|k|values IH|e attr IH|func args keywords IHf IHa IHk
                  |items IH|elts IH|l op r IHl IHr] using expr_ind'; cbn [eval].
  - apply tracks_load_name.
  - apply tracks_ret.
  - apply tracks_bind; [|intros; apply tracks_ret|intros; apply grows_ret].
    apply tracks_mapM. eapply Forall_impl; [exact IH|].
    intros e He. split; [exact He | apply eval_grows].
  - apply tracks_bind; [exact IH|intros; apply tracks_ret|intros; apply grows_ret].
  - apply tracks_bind; [exact IHf| |]; intros f.
    + apply tracks_bind; [| |]; [|intros vs|intros vs].
      * apply tracks_mapM. eapply Forall_impl; [exact IHa|].
        intros e He. split; [exact He | apply eval_grows].
      * apply tracks_bind; [|intros; apply tracks_call|intros; apply grows_call].
        apply tracks_mapM. eapply Forall_impl; [exact IHk|].
        intros kw Hkw. split.
        -- apply tracks_bind; [exact Hkw|intros; apply tracks_ret|intros; apply grows_ret].
        -- apply grows_bind; [apply eval_grows | intros; apply grows_ret].
      * apply grows_bind; [|intros; apply grows_call].
        apply grows_mapM, Forall_forall. intros kw _.
        apply grows_bind; [apply eval_grows | intros; apply grows_ret].
    + apply grows_bind; [apply grows_mapM, Forall_forall; intros; apply eval_grows|].
      intros vs. apply grows_bind; [|intros; apply grows_call].
      apply grows_mapM, Forall_forall. intros kw _.
      apply grows_bind; [apply eval_grows | intros; apply grows_ret].
  - apply tracks_bind; [|intros; apply tracks_ret|intros; apply grows_ret].
    apply tracks_mapM. eapply Forall_impl; [exact IH|].
    intros it [Hk Hv]. split.
    + apply tracks_bind; [exact Hk| |]; intros vk.
      * apply tracks_bind; [exact Hv|intros; apply tracks_ret|intros; apply grows_ret].
      * apply grows_bind; [apply eval_grows | intros; apply grows_ret].
    + apply grows_bind; [apply eval_grows|]. intros vk.
      apply grows_bind; [apply eval_grows | intros; apply grows_ret].
  - apply tracks_bind; [|intros; apply tracks_ret|intros; apply grows_ret].
    apply tracks_mapM. eapply Forall_impl; [exact IH|].
    intros e He. split; [exact He | apply eval_grows].
  - apply tracks_bind; [exact IHl| |]; intros vl.
    + apply tracks_bind; [exact IHr|intros; apply tracks_ret|intros; apply grows_ret].
    + apply grows_bind; [apply eval_grows | intros; apply grows_ret].
Qed.

Lemma exec_tracks c s :
  try_free s = true -> tracks fails (exec fails c s) (exec never c s).
Proof.
  induction s as [e|target e|name|module name|test body orelse IHb IHo
                  |body handler IHb IHh|magic line|parts] using stmt_ind';
    cbn [exec try_free]; intros Hfree.
  - apply tracks_bind; [apply eval_tracks|intros; apply tracks_ret|intros; apply grows_ret].
  - apply tracks_bind;
      [apply eval_tracks|intros; apply tracks_store_name|intros; apply grows_store_name].
  - apply tracks_store_name.
  - apply tracks_store_name.
  - apply andb_true_iff in Hfree as [Hb Ho].
    rewrite forallb_forall in Hb, Ho.
    apply tracks_bind; [apply eval_tracks| |]; intros v.
    + destruct (truthy v); apply tracks_iterM, Forall_forall.
      * intros s Hs. split; [|apply exec_grows].
        rewrite Forall_forall in IHb. apply IHb; [done|].
        apply Hb. by apply list_elem_of_In.
      * intros s Hs. split; [|apply exec_grows].
        rewrite Forall_forall in IHo. apply IHo; [done|].
        apply Ho. by apply list_elem_of_In.
    + destruct (truthy v); apply grows_iterM, Forall_forall;
        intros; apply exec_grows.
  - discriminate.
  - by apply tracks_escape.
  - apply tracks_bind; [|intros; by apply tracks_escape|intros; apply grows_escape].
    apply tracks_mapM, Forall_forall. intros e _.
    split; [apply eval_tracks | apply eval_grows].
Qed.

Lemma run_cells_tracks cs :
  Forall (fun c => forallb try_free (code_of c) = true) cs ->
  forall c, tracks fails (run_cells fails c cs) (run_cells never c cs).
Proof.
  induction 1 as [|[spans|source] cs Hc _ IH]; intros c; cbn [run_cells].
  - apply tracks_ret.
  - apply IH.
  - apply tracks_bind; [|intros; apply IH|intros; apply run_cells_grows].
    cbn in Hc. rewrite forallb_forall in Hc.
    apply tracks_iterM, Forall_forall. intros s Hs.
    split; [|apply exec_grows]. apply exec_tracks, Hc. by apply list_elem_of_In.
Qed.

(** A notebook without [try] hides nothing of what the platform raises. *)
Lemma run_agrees nb :
  Forall (fun c => forallb try_free (code_of c) = true) (cells nb) ->
  agrees fails (run fails nb) (run never nb).
Proof. intros H. apply run_cells_tracks; [exact H | apply clean_nil]. Qed.
End Tracks.

(** ** The four notebooks *)

Lemma notebooks_try_free nb :
  In nb notebooks ->
  Forall (fun c => forallb try_free (code_of c) = true) (cells nb).
Proof.
  intros Hnb. apply Forall_forall. intros c Hc.
  apply list_elem_of_In in Hc.
  assert (Hall : forallb (fun c => forallb try_free (code_of c)) (cells nb) = true).
  { destruct Hnb as [<-|[<-|[<-|[<-|[]]]]]; vm_compute; reflexivity. }
  rewrite forallb_forall in Hall. by apply Hall.
Qed.

(** Whatever fails, the log of a run is an initial part of the log of the
    run in which nothing fails. *)
Lemma run_log_prefix fails nb :
  In nb notebooks -> calls (snd (run fails nb)) `prefix_of` trace nb.
Proof.
  intros Hnb. pose proof (run_agrees fails nb (notebooks_try_free nb Hnb)) as H.
  unfold agrees, trace in *.
  destruct (fst (run fails nb)) as [[]|[name|what]].
  - destruct H as [-> _]. reflexivity.
  - destruct H as [-> _]. reflexivity.
  - apply H.
Qed.

Lemma forallb_prefix {A} (p : A -> bool) (l1 l2 : list A) :
  l1 `prefix_of` l2 -> forallb p l2 = true -> forallb p l1 = true.
Proof.
  intros [l ->]. rewrite forallb_app. intros H. by apply andb_true_iff in H as [H _].
Qed.

Lemma never_after_prefix p q (l1 l2 : list event) :
  l1 `prefix_of` l2 -> never_after p q l2 = true -> never_after p q l1 = true.
Proof.
  revert l2. induction l1 as [|ev l1 IH]; intros l2 Hpre H; [reflexivity|].
  destruct l2 as [|ev2 l2]; [by apply prefix_nil_not in Hpre|].
  apply prefix_cons_inv_1 in Hpre as Hev. apply prefix_cons_inv_2 in Hpre. subst ev2.
  cbn in *. apply andb_true_iff in H as [H1 H2].
  apply andb_true_iff. split; [|by eapply IH].
  destruct (p ev); [|reflexivity]. by eapply forallb_prefix.
Qed.

Ltac each_notebook H :=
  destruct H as [<-|[<-|[<-|[<-|[]]]]].

(** Closed goals about the notebooks and the template are settled by running
    the definitions; equalities are evaluated, never unified by hand. *)
Ltac evaluate :=
  repeat match goal with
         | |- _ /\ _ => split
         | |- Forall _ (_ :: _) => apply List.Forall_cons
         | |- Forall _ [] => apply List.Forall_nil
         | |- In _ _ => vm_compute; tauto
         | |- _ = _ => vm_compute; reflexivity
         end.

(** ** C1: the steps of a notebook, in order *)

(** C1, as stated, fails on notebook 1: its log has no [optimize] call at
    all, so the seven steps said to occur in order in every notebook do not
    occur in it. *)
Lemma nb1_submits_no_optimization :
  In nb1 notebooks /\
  calls_of "optimize" (trace nb1) = [] /\
  in_order optimize_pipeline (trace nb1) = false.
Proof. evaluate. Qed.

(** C1, amended.  Run to the end, every notebook installs its dependencies,
    builds the schema example, builds the model handle on the published model
    identifier, deploys, predicts once and tears down, in this order.
    Notebooks 2, 3 and 4 call [optimize] on the handle before deploying, and
    deploy what it returned; notebook 1 makes no such call: it selects a
    deployment configuration on the handle, builds it, and deploys what
    [build] returned. *)
Theorem notebook_pipelines :
  Forall (fun nb =>
            fst (run never nb) = Ok tt /\
            in_order deploy_pipeline (trace nb) = true /\
            fed_by "predict" "deploy" (trace nb) = true)
         notebooks /\
  Forall (fun nb =>
            in_order optimize_pipeline (trace nb) = true /\
            fed_by "optimize" "ModelBuilder" (trace nb) = true /\
            fed_by "deploy" "optimize" (trace nb) = true)
         [ nb2; nb3; nb4 ] /\
  (optimize_calls nb1 = [] /\
   in_order preoptimized_pipeline (trace nb1) = true /\
   fed_by "set_deployment_config" "ModelBuilder" (trace nb1) = true /\
   fed_by "build" "ModelBuilder" (trace nb1) = true /\
   fed_by "deploy" "build" (trace nb1) = true).
Proof. unfold notebooks. evaluate. Qed.

(** ** C2: the output location of an optimization request *)

(** C2, as stated, fails on notebook 2: its one optimization request passes
    no [output_path]. *)
Lemma nb2_optimize_has_no_output_path :
  In nb2 notebooks /\
  map keywords_of (optimize_calls nb2)
    = [ [ "instance_type"; "accept_eula"; "speculative_decoding_config" ] ] /\
  map has_output_path (optimize_calls nb2) = [ false ].
Proof. evaluate. Qed.

(** C2, amended.  The quantization request of notebook 3 and the compilation
    request of notebook 4 pass an [output_path], a location in the session's
    default bucket; an optimization request passes one exactly when it carries
    a quantization or a compilation configuration, and the speculative-decoding
    request of notebook 2 carries neither. *)
Theorem output_path_of_optimize :
  (exists bucket,
     namespace nb3 !! "artifacts_bucket_name" = Some bucket /\
     result_of "default_bucket" (trace nb3) = Some bucket /\
     map (kwarg "output_path") (optimize_calls nb3)
       = [ Some (VJoined [ VStr "s3://"; bucket; VStr "/awq-quantization/" ]) ]) /\
  (exists bucket,
     namespace nb4 !! "artifacts_bucket_name" = Some bucket /\
     result_of "default_bucket" (trace nb4) = Some bucket /\
     map (kwarg "output_path") (optimize_calls nb4)
       = [ Some (VJoined [ VStr "s3://"; bucket; VStr "/neuron/" ]) ]) /\
  Forall (fun nb =>
            Forall (fun ev =>
                      has_output_path ev
                      = existsb (fun kv => String.eqb (fst kv) "quantization_config"
                                           || String.eqb (fst kv) "compilation_config")
                                (configs_of ev))
                   (optimize_calls nb))
         notebooks.
Proof.
  split; [|split].
  - exists (VResult 2). evaluate.
  - exists (VResult 2). evaluate.
  - compute_done.
Qed.

(** ** C3: validation of the template parameters *)

(** C3, as stated, fails on [SageMakerIAMRole]: its declaration has neither a
    [MinLength] nor an [AllowedPattern]. *)
Lemma role_name_is_not_validated :
  In "SageMakerIAMRole" parameter_names /\
  validated "SageMakerIAMRole" = false.
Proof. evaluate. Qed.

(** C3, amended.  The template has the two parameters.  The notebook name is
    validated: minimum length 1, maximum length 63 and an allowed pattern.
    The role name is declared as a string with a description and the default
    [LLMAppsBlogIAMRole], and nothing else. *)
Theorem parameter_validation :
  parameter_names = [ "SageMakerNotebookName"; "SageMakerIAMRole" ] /\
  validated "SageMakerNotebookName" = true /\
  at_path [ "Parameters"; "SageMakerNotebookName"; "MinLength" ] template = Some (JNum 1) /\
  at_path [ "Parameters"; "SageMakerNotebookName"; "MaxLength" ] template = Some (JNum 63) /\
  at_path [ "Parameters"; "SageMakerNotebookName"; "AllowedPattern" ] template
    = Some (JStr "^[a-z0-9](-*[a-z0-9])*") /\
  (exists decl,
     parameter "SageMakerIAMRole" = Some decl /\
     keys_of decl = [ "Description"; "Type"; "Default" ] /\
     member "Type" decl = Some (JStr "String") /\
     member "Default" decl = Some (JStr "LLMAppsBlogIAMRole")).
Proof.
  do 5 (split; [vm_compute; reflexivity|]).
  exists (JObj [
    ("Description",
     JStr "Name of IAM role that will be created by this CloudFormation template. The role name must _not_ already exist in your AWS account.");
    ("Type", JStr "String");
    ("Default", JStr "LLMAppsBlogIAMRole") ]).
  evaluate.
Qed.

(** ** C4: what the provisioned role may do *)

(** C4, as stated, fails: the role also carries the managed policy
    [AmazonSageMakerFullAccess], which is neither registry access nor one of
    the two read-only policies. *)
Lemma role_has_full_platform_access :
  In sagemaker_full_access managed_policies /\
  is_read_only_policy sagemaker_full_access = false /\
  forallb is_read_only_policy managed_policies = false.
Proof. evaluate. Qed.

(** C4, amended.  The notebook instance runs under the provisioned role, which
    the SageMaker service may assume.  The role has one inline policy with one
    [Allow] statement; its registry actions are the twelve listed, reads and
    writes, on the repositories of the deploying account and region.  The
    managed policies attached are three: full access to SageMaker, read-only
    access to CloudFormation and read-only access to Translate. *)
Theorem role_access :
  at_path [ "Resources"; "NotebookInstance"; "Properties"; "RoleArn" ] template
    = Some (JObj [ ("Fn::GetAtt", JArr [ JStr "Role"; JStr "Arn" ]) ]) /\
  at_path [ "Resources"; "Role"; "Type" ] template = Some (JStr "AWS::IAM::Role") /\
  map (fun st => (member "Effect" st, strings_of (elements_of (at_path [ "Principal"; "Service" ] st)),
                  actions_of st))
      assume_role_statements
    = [ (Some (JStr "Allow"), [ "sagemaker.amazonaws.com" ], [ "sts:AssumeRole" ]) ] /\
  map (member "Effect") inline_statements = [ Some (JStr "Allow") ] /\
  map (fun st => filter (fun a => is_registry_action a = true) (actions_of st)) inline_statements
    = [ [ "ecr:BatchGetImage"; "ecr:BatchCheckLayerAvailability";
          "ecr:CompleteLayerUpload"; "ecr:DescribeImages";
          "ecr:DescribeRepositories"; "ecr:GetDownloadUrlForLayer";
          "ecr:InitiateLayerUpload"; "ecr:ListImages"; "ecr:PutImage";
          "ecr:UploadLayerPart"; "ecr:CreateRepository";
          "ecr:GetAuthorizationToken" ] ] /\
  map resources_of inline_statements = [ [ repository_arn ] ] /\
  managed_policies
    = [ sagemaker_full_access; cloudformation_read_only; translate_read_only ].
Proof. evaluate. Qed.

(** ** C5: no branching, no error handling *)

(** C5.  No statement of any code cell is an [if] or a [try].  Hence, on any
    platform, if a Python call made by the run fails, the run ends with the
    very exception the platform raised, at that call: the failed call is the
    last entry of the log. *)
Theorem failures_propagate (fails : nat -> event -> option string) (nb : notebook) :
  In nb notebooks ->
  forallb straight_line (statements nb) = true /\
  forall i ev what,
    calls (snd (run fails nb)) !! i = Some ev ->
    is_python_call ev = true ->
    fails i ev = Some what ->
    fst (run fails nb) = Raises (External what) /\
    length (calls (snd (run fails nb))) = S i.
Proof.
  intros Hnb. split.
  { each_notebook Hnb; vm_compute; reflexivity. }
  intros i ev what Hi Hpy Hfail.
  pose proof (run_agrees fails nb (notebooks_try_free nb Hnb)) as H.
  unfold agrees in H.
  destruct (fst (run fails nb)) as [[]|[name|what']].
  - destruct H as [_ Hclean]. rewrite (Hclean i ev Hi Hpy) in Hfail. discriminate.
  - destruct H as [_ Hclean]. rewrite (Hclean i ev Hi Hpy) in Hfail. discriminate.
  - destruct H as [_ (tr & ev' & Htr & Hclean & Hpy' & Hfail')].
    rewrite Htr in Hi |- *. rewrite length_app. cbn [length].
    destruct (decide (i < length tr)%nat) as [Hlt|Hge].
    + rewrite lookup_app_l in Hi by done.
      rewrite (Hclean i ev Hi Hpy) in Hfail. discriminate.
    + rewrite lookup_app_r in Hi by lia.
      destruct (i - length tr)%nat as [|j] eqn:Hj; [|destruct j; discriminate].
      cbn in Hi. inversion Hi; subst ev'.
      assert (i = length tr) as -> by lia.
      rewrite Hfail' in Hfail. inversion Hfail; subst. split; [reflexivity | lia].
Qed.

(** On a platform without quota for optimization jobs, notebook 3 stops at
    its [optimize] call, entry 6 of its log, with the platform's exception. *)
Lemma failures_propagate_witness :
  In nb3 notebooks /\
  (exists ev, calls (snd (run quota_exhausted nb3)) !! 6%nat = Some ev /\
              is_python_call ev = true /\
              quota_exhausted 6%nat ev = Some "ResourceLimitExceeded") /\
  fst (run quota_exhausted nb3) = Raises (External "ResourceLimitExceeded") /\
  length (calls (snd (run quota_exhausted nb3))) = 7%nat.
Proof.
  assert (Hnb : In nb3 notebooks) by (vm_compute; tauto).
  split; [exact Hnb|].
  split; [eexists; repeat (split; [vm_compute; reflexivity|]); vm_compute; reflexivity|].
  destruct (failures_propagate quota_exhausted nb3 Hnb) as [_ H].
  eapply (H 6%nat); vm_compute; reflexivity.
Defined.

(** With a [try] around the request the same failure is swallowed. *)
Example try_swallows_failure :
  forallb try_free (statements guarded_notebook) = false /\
  fst (run quota_exhausted guarded_notebook) = Ok tt /\
  ns (snd (run quota_exhausted guarded_notebook)) !! "optimized_model" = Some (VConst CNone).
Proof. evaluate. Qed.

(** ** C6: inference, then teardown, and nothing after *)

(** C6.  Whatever the platform does, no run of a notebook calls [predict]
    after [delete_endpoint].  In the run to the end, the log closes with one
    [predict] on the sample input, made on what [deploy] returned, and then
    [delete_model] and [delete_endpoint(delete_endpoint_config=True)] on the
    same predictor; there is no other [predict]; the two deletions are the
    last code cell of the notebook, the clean-up cell, and the prediction
    comes from an earlier cell. *)
Theorem teardown_is_last (fails : nat -> event -> option string) (nb : notebook) :
  In nb notebooks ->
  never_after is_delete_endpoint is_predict (calls (snd (run fails nb))) = true /\
  exists before c_predict c_cleanup predictor,
    trace nb
      = before ++
        [ method_call c_predict predictor "predict" [ sample_input_value ] [];
          method_call c_cleanup predictor "delete_model" [] [];
          method_call c_cleanup predictor "delete_endpoint" []
            [ ("delete_endpoint_config", VConst (CBool true)) ] ] /\
    forallb (fun ev => negb (is_predict ev)) before = true /\
    namespace nb !! "sample_input" = Some sample_input_value /\
    namespace nb !! "predictor" = Some predictor /\
    result_of "deploy" (trace nb) = Some predictor /\
    final_code_cell nb = Some (c_cleanup, cell_cleanup) /\
    (c_predict < c_cleanup)%nat.
Proof.
  intros Hnb. split.
  - eapply never_after_prefix; [by apply run_log_prefix|].
    each_notebook Hnb; vm_compute; reflexivity.
  - exists (take (length (trace nb) - 3) (trace nb)),
           (length (cells nb) - 2)%nat, (length (cells nb) - 1)%nat,
           (VResult (length (trace nb) - 4)).
    each_notebook Hnb; repeat (split; [vm_compute; reflexivity|]);
      vm_compute; lia.
Qed.

(** Notebook 3 on the platform without quota: its log stops before any
    prediction or deletion; run to the end, it closes as stated. *)
Lemma teardown_is_last_witness :
  In nb3 notebooks /\
  never_after is_delete_endpoint is_predict (calls (snd (run quota_exhausted nb3))) = true /\
  final_code_cell nb3 = Some (14%nat, cell_cleanup).
Proof.
  assert (Hnb : In nb3 notebooks) by (vm_compute; tauto).
  destruct (teardown_is_last quota_exhausted nb3 Hnb) as [H _].
  split; [exact Hnb|]. split; [exact H | vm_compute; reflexivity].
Defined.

(** ** C7: the optimization configurations *)

(** C7.  Every configuration handed to an optimization request is either an
    [OverrideEnvironment] mapping all of whose keys and values are strings,
    or a [ModelSource] pointing at uploaded artifacts. *)
Theorem configs_are_mappings_or_pointers (nb : notebook) (name : string) (v : value) :
  In nb notebooks ->
  In (name, v) (optimization_configs nb) ->
  is_environment_mapping v = true \/ is_draft_model_pointer (trace nb) v = true.
Proof.
  intros Hnb Hv.
  assert (Hall : forallb (fun kv => is_environment_mapping (snd kv)
                                    || is_draft_model_pointer (trace nb) (snd kv))
                         (optimization_configs nb) = true).
  { each_notebook Hnb; vm_compute; reflexivity. }
  rewrite forallb_forall in Hall. specialize (Hall _ Hv).
  apply orb_true_iff in Hall. exact Hall.
Qed.

(** The compilation configuration of notebook 4: the tensor-parallelism
    degree and the maximum batch size are the strings [24] and [4]. *)
Lemma configs_are_mappings_or_pointers_witness :
  In nb4 notebooks /\
  In ("compilation_config", neuron_compilation_config) (optimization_configs nb4) /\
  (is_environment_mapping neuron_compilation_config = true \/
   is_draft_model_pointer (trace nb4) neuron_compilation_config = true).
Proof.
  assert (Hnb : In nb4 notebooks) by (vm_compute; tauto).
  assert (Hin : In ("compilation_config", neuron_compilation_config)
                   (optimization_configs nb4)) by (vm_compute; tauto).
  split; [exact Hnb|]. split; [exact Hin|].
  exact (configs_are_mappings_or_pointers nb4 _ _ Hnb Hin).
Defined.

(** ** C8: the instance type of notebook 1 *)

(** C8.  Notebook 1 sets its deployment configuration for [ml.g5.48xlarge].
    Its variables bind [ml.p4d.24xlarge] and [ml.inf2.48xlarge], its prose
    names these two and no other instance type, and [ml.g5.48xlarge] is
    neither. *)
Theorem nb1_instance_type_mismatch :
  map (fun ie => instance_type_of (snd ie)) (calls_of "set_deployment_config" (trace nb1))
    = [ Some (VStr "ml.g5.48xlarge") ] /\
  namespace nb1 !! "gpu_instance_type" = Some (VStr "ml.p4d.24xlarge") /\
  namespace nb1 !! "neuron_instance_type" = Some (VStr "ml.inf2.48xlarge") /\
  instance_types_named nb1 = [ "ml.p4d.24xlarge"; "ml.inf2.48xlarge"; "ml.p4d.24xlarge" ] /\
  existsb (String.eqb "ml.g5.48xlarge") (instance_types_named nb1) = false /\
  "ml.g5.48xlarge" <> "ml.p4d.24xlarge" /\
  "ml.g5.48xlarge" <> "ml.inf2.48xlarge".
Proof. evaluate; discriminate. Qed.

(** ** C9: the instance types of notebook 3 *)

(** C9.  Notebook 3 requests the quantization for [ml.p4d.24xlarge], the
    value of [gpu_instance_type], and deploys on [ml.g5.12xlarge], passed
    to [deploy] as [instance_type]: another instance type, and a smaller one
    (size 12 against 24). *)
Theorem nb3_deploys_on_smaller_instance :
  map instance_type_of (optimize_calls nb3) = [ Some (VStr "ml.p4d.24xlarge") ] /\
  namespace nb3 !! "gpu_instance_type" = Some (VStr "ml.p4d.24xlarge") /\
  map (fun ie => instance_type_of (snd ie)) (calls_of "deploy" (trace nb3))
    = [ Some (VStr "ml.g5.12xlarge") ] /\
  fed_by "deploy" "optimize" (trace nb3) = true /\
  "ml.g5.12xlarge" <> "ml.p4d.24xlarge" /\
  xlarge_size "ml.g5.12xlarge" = Some 12%nat /\
  xlarge_size "ml.p4d.24xlarge" = Some 24%nat.
Proof. evaluate; discriminate. Qed.

(** ** C10: the registry permissions are scoped *)

(** C10.  The inline policy has a statement, and the resources of every
    statement are the one pattern of repository ARNs in the deploying account
    and region; none is the wildcard. *)
Theorem registry_permissions_scoped :
  length inline_statements = 1%nat /\
  Forall (fun st =>
            resources_of st = [ repository_arn ] /\
            existsb is_wildcard (resources_of st) = false)
         inline_statements.
Proof.
  split; [vm_compute; reflexivity|].
  apply Forall_forall. intros st Hst. apply list_elem_of_In in Hst.
  vm_compute in Hst. destruct Hst as [<-|[]]. evaluate.
Qed.

(** * Further properties of the notebooks *)

(** ** Runs on a failing platform *)

Lemma complete_run_ok nb : In nb notebooks -> fst (run never nb) = Ok tt.
Proof. intros Hnb. each_notebook Hnb; vm_compute; reflexivity. Qed.

Lemma prefix_is_take {A} (l1 l2 : list A) :
  l1 `prefix_of` l2 -> l1 = take (length l1) l2.
Proof. intros [k ->]. by rewrite take_app_length. Qed.

Lemma positions_from_lookup p tr :
  forall i j ev, tr !! j = Some ev -> p ev = true -> In (i + j)%nat (positions_from p i tr).
Proof.
  induction tr as [|ev' tr IH]; intros i j ev Hj Hp; [discriminate|].
  cbn [positions_from]. apply in_or_app. destruct j as [|j].
  - cbn in Hj. inversion Hj; subst. rewrite Hp. left. left. lia.
  - right. replace (i + S j)%nat with (S i + j)%nat by lia. by eapply IH.
Qed.

Lemma positions_lookup p tr j ev :
  tr !! j = Some ev -> p ev = true -> In j (positions p tr).
Proof. intros Hj Hp. by apply (positions_from_lookup p tr 0 j ev). Qed.

Lemma existsb_lookup {A} (p : A -> bool) (l : list A) :
  existsb p l = true -> exists j x, l !! j = Some x /\ p x = true.
Proof.
  induction l as [|x l IH]; [discriminate|]. cbn.
  destruct (p x) eqn:Hp.
  - intros _. by exists 0%nat, x.
  - cbn. intros H. destruct (IH H) as (j & y & Hj & Hy). by exists (S j), y.
Qed.

(** A notebook without [try], on any platform: a failed Python call found in
    the log is its last entry, and the run ended with what that call raised. *)
Lemma failed_call_ends_run fails nb :
  Forall (fun c => forallb try_free (code_of c) = true) (cells nb) ->
  forall i ev what,
    calls (snd (run fails nb)) !! i = Some ev ->
    is_python_call ev = true ->
    fails i ev = Some what ->
    fst (run fails nb) = Raises (External what) /\
    length (calls (snd (run fails nb))) = S i.
Proof.
  intros Hfree i ev what Hi Hpy Hfail.
  pose proof (run_agrees fails nb Hfree) as H. unfold agrees in H.
  destruct (fst (run fails nb)) as [[]|[name|what']].
  - destruct H as [_ Hclean]. rewrite (Hclean i ev Hi Hpy) in Hfail. discriminate.
  - destruct H as [_ Hclean]. rewrite (Hclean i ev Hi Hpy) in Hfail. discriminate.
  - destruct H as [_ (tr & ev' & Htr & Hclean & Hpy' & Hfail')].
    rewrite Htr in Hi |- *. rewrite length_app. cbn [length].
    apply lookup_snoc_Some in Hi as [[Hlt Hi]|[-> ->]].
    + rewrite (Hclean i ev Hi Hpy) in Hfail. discriminate.
    + rewrite Hfail' in Hfail. inversion Hfail; subst. split; [reflexivity | lia].
Qed.

(** X1.  On no platform does a run of a notebook end in a [NameError]: every
    name a cell reads has been bound by the time the cell runs. *)
Theorem no_name_error (fails : nat -> event -> option string) (nb : notebook)
    (name : string) :
  In nb notebooks ->
  fst (run fails nb) <> Raises (NameError name).
Proof.
  intros Hnb Hrun.
  pose proof (run_agrees fails nb (notebooks_try_free nb Hnb)) as H.
  unfold agrees in H. rewrite Hrun in H. destruct H as [H _].
  apply (f_equal fst) in H. rewrite Hrun, (complete_run_ok nb Hnb) in H.
  discriminate.
Qed.

Lemma no_name_error_witness :
  In nb2 notebooks /\
  fst (run quota_exhausted nb2) <> Raises (NameError "draft_uri").
Proof.
  assert (Hnb : In nb2 notebooks) by (vm_compute; tauto).
  split; [exact Hnb|]. exact (no_name_error quota_exhausted nb2 "draft_uri" Hnb).
Defined.





Lemma is_method_python m ev : is_method m ev = true -> is_python_call ev = true.
Proof.
  unfold is_method, method_of, is_python_call.
  destruct (ev_callee ev); [reflexivity | discriminate | discriminate].
Qed.

(** X4.  On any platform, a run that reaches [delete_endpoint] has made every
    call of the complete log: teardown is attempted only after everything
    before it succeeded. *)
Theorem teardown_only_after_success (fails : nat -> event -> option string)
    (nb : notebook) :
  In nb notebooks ->
  existsb is_delete_endpoint (calls (snd (run fails nb))) = true ->
  calls (snd (run fails nb)) = trace nb.
Proof.
  intros Hnb Hex.
  pose proof (run_log_prefix fails nb Hnb) as Hpre.
  destruct (existsb_lookup _ _ Hex) as (j & ev & Hj & Hev).
  assert (Hj' : trace nb !! j = Some ev) by (by eapply prefix_lookup_Some).
  assert (Hpos : positions is_delete_endpoint (trace nb) = [ pred (length (trace nb)) ]).
  { each_notebook Hnb; vm_compute; reflexivity. }
  pose proof (positions_lookup _ _ _ _ Hj' Hev) as Hin. rewrite Hpos in Hin.
  destruct Hin as [Hlast|[]].
  apply lookup_lt_Some in Hj. apply lookup_lt_Some in Hj'.
  apply prefix_length_eq; [exact Hpre | lia].
Qed.

Lemma teardown_only_after_success_witness :
  In nb1 notebooks /\
  existsb is_delete_endpoint (calls (snd (run quota_exhausted nb1))) = true /\
  calls (snd (run quota_exhausted nb1)) = trace nb1.
Proof.
  assert (Hnb : In nb1 notebooks) by (vm_compute; tauto).
  assert (Hex : existsb is_delete_endpoint (calls (snd (run quota_exhausted nb1))) = true)
    by (vm_compute; reflexivity).
  split; [exact Hnb|]. split; [exact Hex|].
  exact (teardown_only_after_success quota_exhausted nb1 Hnb Hex).
Defined.

(** X5.  On any platform on which the example inference call fails, the run
    ends with that failure after the endpoint has been deployed, and deletes
    neither the model nor the endpoint. *)
Theorem failed_prediction_leaves_endpoint (fails : nat -> event -> option string)
    (nb : notebook) (i : nat) (ev : event) (what : string) :
  In nb notebooks ->
  calls (snd (run fails nb)) !! i = Some ev ->
  is_predict ev = true ->
  fails i ev = Some what ->
  fst (run fails nb) = Raises (External what) /\
  existsb is_deploy (calls (snd (run fails nb))) = true /\
  existsb is_delete_model (calls (snd (run fails nb))) = false /\
  existsb is_delete_endpoint (calls (snd (run fails nb))) = false.
Proof.
  intros Hnb Hi Hev Hfail.
  pose proof (run_log_prefix fails nb Hnb) as Hpre.
  destruct (failed_call_ends_run fails nb (notebooks_try_free nb Hnb) i ev what
              Hi (is_method_python _ _ Hev) Hfail) as [Hrun Hlen].
  split; [exact Hrun|].
  assert (Hi' : trace nb !! i = Some ev) by (by eapply prefix_lookup_Some).
  assert (Hpos : positions is_predict (trace nb) = [ (length (trace nb) - 3)%nat ]).
  { each_notebook Hnb; vm_compute; reflexivity. }
  pose proof (positions_lookup _ _ _ _ Hi' Hev) as Hin. rewrite Hpos in Hin.
  destruct Hin as [Hpred|[]].
  rewrite (prefix_is_take _ _ Hpre), Hlen, <- Hpred.
  each_notebook Hnb; vm_compute; repeat split; reflexivity.
Qed.

Lemma failed_prediction_leaves_endpoint_witness :
  In nb4 notebooks /\
  fst (run predict_fails nb4) = Raises (External "ModelError") /\
  existsb is_deploy (calls (snd (run predict_fails nb4))) = true /\
  existsb is_delete_model (calls (snd (run predict_fails nb4))) = false /\
  existsb is_delete_endpoint (calls (snd (run predict_fails nb4))) = false.
Proof.
  assert (Hnb : In nb4 notebooks) by (vm_compute; tauto).
  split; [exact Hnb|].
  eapply (failed_prediction_leaves_endpoint predict_fails nb4 8%nat _ "ModelError" Hnb);
    vm_compute; reflexivity.
Defined.

(** ** What the notebooks hand to the SDK *)

(** X6.  In every notebook the model handle is built from the schema example
    made of the sample input and the sample output, from the session that
    also gives the default bucket, and from the role of the caller of that
    session. *)
Theorem model_handle_wiring (nb : notebook) :
  In nb notebooks ->
  exists session schema role,
    result_of "Session" (trace nb) = Some session /\
    call_receiver "default_bucket" (trace nb) = Some session /\
    call_receiver "get_caller_identity_arn" (trace nb) = Some session /\
    result_of "get_caller_identity_arn" (trace nb) = Some role /\
    (ev_args <$> the_call "SchemaBuilder" (trace nb))
      = Some [ sample_input_value; sample_output_value ] /\
    result_of "SchemaBuilder" (trace nb) = Some schema /\
    call_kwarg "ModelBuilder" "schema_builder" (trace nb) = Some schema /\
    call_kwarg "ModelBuilder" "sagemaker_session" (trace nb) = Some session /\
    call_kwarg "ModelBuilder" "role_arn" (trace nb) = Some role.
Proof.
  intros Hnb. exists (VResult 1), (VResult 4), (VResult 3).
  each_notebook Hnb; evaluate.
Qed.

Lemma model_handle_wiring_witness :
  In nb4 notebooks /\
  exists session schema role,
    result_of "Session" (trace nb4) = Some session /\
    call_receiver "default_bucket" (trace nb4) = Some session /\
    call_receiver "get_caller_identity_arn" (trace nb4) = Some session /\
    result_of "get_caller_identity_arn" (trace nb4) = Some role /\
    (ev_args <$> the_call "SchemaBuilder" (trace nb4))
      = Some [ sample_input_value; sample_output_value ] /\
    result_of "SchemaBuilder" (trace nb4) = Some schema /\
    call_kwarg "ModelBuilder" "schema_builder" (trace nb4) = Some schema /\
    call_kwarg "ModelBuilder" "sagemaker_session" (trace nb4) = Some session /\
    call_kwarg "ModelBuilder" "role_arn" (trace nb4) = Some role.
Proof.
  assert (Hnb : In nb4 notebooks) by (vm_compute; tauto).
  split; [exact Hnb|]. exact (model_handle_wiring nb4 Hnb).
Defined.

(** X7.  Notebook 2 hands to the optimization request the draft model it
    downloaded: the directory created and filled by [snapshot_download] is the
    one uploaded to the default bucket, and the location the upload returned,
    with [/] appended, is both what the shell listing shows and the
    [ModelSource] of the request.  These steps come in this order. *)
Theorem nb2_draft_model_flow :
  exists dir uri,
    namespace nb2 !! "hf_local_download_dir" = Some dir /\
    call_receiver "mkdir" (trace nb2) = Some dir /\
    call_kwarg "snapshot_download" "repo_id" (trace nb2)
      = Some (VStr "meta-llama/Meta-Llama-3-8B") /\
    call_kwarg "snapshot_download" "local_dir" (trace nb2) = Some dir /\
    call_receiver "as_posix" (trace nb2) = Some dir /\
    call_kwarg "upload_data" "path" (trace nb2) = result_of "as_posix" (trace nb2) /\
    call_kwarg "upload_data" "bucket" (trace nb2) = result_of "default_bucket" (trace nb2) /\
    result_of "upload_data" (trace nb2) = Some uri /\
    map ev_args (filter (fun ev => is_shell ev = true) (trace nb2))
      = [ [ VJoined [ VStr "aws s3 ls "; VBinOp uri Add (VStr "/");
                      VStr " #verify model artifacts" ] ] ] /\
    call_kwarg "optimize" "speculative_decoding_config" (trace nb2)
      = Some (VDict [ (VStr "ModelSource", VBinOp uri Add (VStr "/")) ]) /\
    in_order [ is_method "mkdir"; is_method "snapshot_download";
               is_method "upload_data"; is_shell; is_optimize ] (trace nb2) = true.
Proof.
  exists (VBinOp (VResult 5) Div (VStr "model_repo")), (VResult 9). evaluate.
Qed.

(** X8.  Every optimization request and every deployment, in every notebook,
    accepts the model's end-user licence ([accept_eula=True]). *)
Theorem eula_accepted (nb : notebook) (ev : event) :
  In nb notebooks ->
  In ev (trace nb) ->
  is_optimize ev || is_deploy ev = true ->
  kwarg "accept_eula" ev = Some (VConst (CBool true)).
Proof.
  intros Hnb Hev Hcall.
  assert (Hall : forallb (fun ev => implb (is_optimize ev || is_deploy ev) (accepts_eula ev))
                         (trace nb) = true).
  { each_notebook Hnb; vm_compute; reflexivity. }
  rewrite forallb_forall in Hall. specialize (Hall ev Hev).
  rewrite Hcall in Hall. cbn in Hall. unfold accepts_eula in Hall.
  destruct (kwarg "accept_eula" ev) as [[[| | |[]|]| | | | | | |]|]; done.
Qed.

Lemma eula_accepted_witness :
  In nb3 notebooks /\
  (exists ev, In ev (trace nb3) /\ is_optimize ev || is_deploy ev = true /\
              kwarg "accept_eula" ev = Some (VConst (CBool true))).
Proof.
  assert (Hnb : In nb3 notebooks) by (vm_compute; tauto).
  split; [exact Hnb|].
  destruct (the_call "optimize" (trace nb3)) as [ev|] eqn:Hev;
    [|vm_compute in Hev; discriminate].
  exists ev.
  assert (Hin : In ev (trace nb3)).
  { vm_compute in Hev. inversion Hev. vm_compute. tauto. }
  assert (Hopt : is_optimize ev || is_deploy ev = true).
  { vm_compute in Hev. inversion Hev. vm_compute. reflexivity. }
  split; [exact Hin|]. split; [exact Hopt|].
  exact (eula_accepted nb3 ev Hnb Hin Hopt).
Defined.

(** X9.  The instance types the notebooks hand to the platform: notebook 1
    [ml.g5.48xlarge]; notebook 2 [ml.p4d.24xlarge]; notebook 3
    [ml.p4d.24xlarge] then [ml.g5.12xlarge]; notebook 4 [ml.inf2.48xlarge].
    No notebook uses both instance types its introduction asks for, and
    notebook 1 uses neither. *)
Theorem instance_types_used :
  map instance_types_passed notebooks
    = [ [ VStr "ml.g5.48xlarge" ];
        [ VStr "ml.p4d.24xlarge" ];
        [ VStr "ml.p4d.24xlarge"; VStr "ml.g5.12xlarge" ];
        [ VStr "ml.inf2.48xlarge" ] ] /\
  map instance_types_named notebooks
    = [ [ "ml.p4d.24xlarge"; "ml.inf2.48xlarge"; "ml.p4d.24xlarge" ];
        [ "ml.p4d.24xlarge"; "ml.inf2.48xlarge" ];
        [ "ml.p4d.24xlarge"; "ml.inf2.48xlarge" ];
        [ "ml.p4d.24xlarge"; "ml.inf2.48xlarge" ] ].
Proof. evaluate. Qed.

(** * Further properties of the template *)

(** X10.  Every [Ref] of the template names a declared parameter and every
    declared parameter is referred to; every [Fn::GetAtt] names a declared
    resource; every placeholder of an [Fn::Sub] is a pseudo parameter.  The
    resources referred to are the role and the notebook instance: nothing
    refers to the [CodeRepository] resource, and the notebook instance names
    the repository by the same URL instead. *)
Theorem template_references_resolve :
  incl (refs_of template) parameter_names /\
  incl parameter_names (refs_of template) /\
  incl (map fst (getatts_of template)) resource_names /\
  incl (concat (map (placeholders None) (subs_of template))) pseudo_parameters /\
  resource_names = [ "CodeRepository"; "NotebookInstance"; "Role" ] /\
  existsb (String.eqb "CodeRepository") (map fst (getatts_of template) ++ refs_of template)
    = false /\
  at_path [ "Resources"; "NotebookInstance"; "Properties"; "DefaultCodeRepository" ] template
    = at_path [ "Resources"; "CodeRepository"; "Properties"; "GitConfig"; "RepositoryUrl" ]
              template.
Proof.
  assert (Hrefs : refs_of template = [ "SageMakerNotebookName"; "SageMakerIAMRole" ])
    by (vm_compute; reflexivity).
  assert (Hatts : getatts_of template
                  = [ ("Role", "Arn"); ("NotebookInstance", "NotebookInstanceName") ])
    by (vm_compute; reflexivity).
  assert (Hpars : parameter_names = [ "SageMakerNotebookName"; "SageMakerIAMRole" ])
    by (vm_compute; reflexivity).
  assert (Hres : resource_names = [ "CodeRepository"; "NotebookInstance"; "Role" ])
    by (vm_compute; reflexivity).
  assert (Hsub : concat (map (placeholders None) (subs_of template))
                 = [ "AWS::Region"; "AWS::AccountId"; "AWS::Region" ])
    by (vm_compute; reflexivity).
  rewrite Hrefs, Hatts, Hpars, Hres, Hsub. unfold pseudo_parameters.
  repeat match goal with
         | |- _ /\ _ => split
         | |- incl _ _ => intros x Hx; cbn in Hx |- *; tauto
         | |- _ = _ => vm_compute; reflexivity
         end.
Qed.

(** X11.  In every deployment, the resource of the registry statement of the
    inline policy resolves to the repositories of the region and the account
    of the stack, whatever values the parameters take; it is never the
    wildcard. *)
Theorem registry_resource_resolved (d : deployment) :
  map (resolve d) (concat (map resources_of inline_statements))
    = [ Some ("arn:aws:ecr:" +:+ region d +:+ ":" +:+ account d +:+ ":repository/*") ] /\
  "arn:aws:ecr:" +:+ region d +:+ ":" +:+ account d +:+ ":repository/*" <> "*".
Proof. split; [reflexivity | discriminate]. Qed.

(** X12.  In every deployment, the output of the stack is the console URL of
    the region of the stack that opens the notebook instance by the name the
    service reports for it. *)
Theorem notebook_url_resolved (d : deployment) (name : string) :
  attribute d "NotebookInstance" "NotebookInstanceName" = Some name ->
  stack_output d "SageMakerNotebookURL"
    = Some (("https://console.aws.amazon.com/sagemaker/home?region=" +:+ region d
             +:+ "#/notebook-instances/openNotebook/")
            +:+ name +:+ "?view=classic").
Proof.
  destruct d as [region_d account_d params attrs]. cbn [attribute region].
  intros Hname. unfold stack_output. vm_compute. rewrite Hname.
  vm_compute. reflexivity.
Qed.

Lemma notebook_url_resolved_witness :
  attribute example_deployment "NotebookInstance" "NotebookInstanceName"
    = Some "aws-llm-apps-blog" /\
  stack_output example_deployment "SageMakerNotebookURL"
    = Some "https://console.aws.amazon.com/sagemaker/home?region=eu-west-1#/notebook-instances/openNotebook/aws-llm-apps-blog?view=classic".
Proof.
  split; [reflexivity|].
  exact (notebook_url_resolved example_deployment "aws-llm-apps-blog" eq_refl).
Defined.

(** * Further properties: parameter values *)

(** ** Matching by derivatives is matching *)

Lemma nullable_lang r : nullable r = true <-> lang r [].
Proof.
  split.
  - induction r as [| |ranges|r1 IH1 r2 IH2|r1 IH1 r2 IH2|r IH]; cbn; intros H;
      try discriminate.
    + constructor.
    + apply andb_true_iff in H as [H1 H2].
      apply (lang_cat r1 r2 [] []); auto.
    + apply orb_true_iff in H as [H|H]; [apply lang_alt_l | apply lang_alt_r]; auto.
    + constructor.
  - induction r as [| |ranges|r1 IH1 r2 IH2|r1 IH1 r2 IH2|r IH]; cbn; intros H;
      inversion H; subst; try reflexivity.
    + match goal with E : _ ++ _ = [] |- _ => apply app_eq_nil in E as [-> ->] end.
      apply andb_true_iff. split; auto.
    + apply orb_true_iff. left. auto.
    + apply orb_true_iff. right. auto.
Qed.

Lemma star_cons_inv r c s :
  lang (RStar r) (c :: s) ->
  exists s1 s2, s = s1 ++ s2 /\ lang r (c :: s1) /\ lang (RStar r) s2.
Proof.
  intros H. remember (RStar r) as r' eqn:Hr. remember (c :: s) as cs eqn:Hcs.
  induction H as [| | | | | |r0 s1 s2 H1 _ H2 IH2]; try discriminate.
  inversion Hr; subst r0. destruct s1 as [|c' s1].
  - cbn in Hcs. by apply IH2.
  - cbn in Hcs. inversion Hcs; subst. by exists s1, s2.
Qed.

Lemma deriv_lang c r : forall s, lang (deriv c r) s <-> lang r (c :: s).
Proof.
  induction r as [| |ranges|r1 IH1 r2 IH2|r1 IH1 r2 IH2|r IH]; intros s; cbn.
  - split; intros H; inversion H.
  - split; intros H; inversion H.
  - split; intros H.
    + destruct (in_class c ranges) eqn:Hc; inversion H; subst. by constructor.
    + inversion H; subst. match goal with E : in_class _ _ = true |- _ => rewrite E end.
      constructor.
  - split; intros H.
    + destruct (nullable r1) eqn:Hn.
      * inversion H as [| | |? ? ? H'|? ? ? H'| |]; subst.
        -- inversion H' as [| |? ? s1 s2 Ha Hb| | | |]; subst.
           apply (lang_cat r1 r2 (c :: s1) s2); [by apply IH1 | done].
        -- apply (lang_cat r1 r2 [] (c :: s)); [by apply nullable_lang | by apply IH2].
      * inversion H as [| |? ? s1 s2 Ha Hb| | | |]; subst.
        apply (lang_cat r1 r2 (c :: s1) s2); [by apply IH1 | done].
    + inversion H as [| |? ? s1 s2 Ha Hb| | | |].
      match goal with E : s1 ++ s2 = c :: s |- _ => rename E into Hs end.
      subst. destruct s1 as [|c' s1]; cbn in Hs.
      * subst s2. apply nullable_lang in Ha. rewrite Ha.
        apply lang_alt_r. by apply IH2.
      * inversion Hs; subst. apply IH1 in Ha.
        destruct (nullable r1); [apply lang_alt_l|]; by constructor.
  - split; intros H.
    + inversion H; subst; [apply lang_alt_l; by apply IH1 | apply lang_alt_r; by apply IH2].
    + inversion H; subst; [apply lang_alt_l; by apply IH1 | apply lang_alt_r; by apply IH2].
  - split; intros H.
    + inversion H as [| |? ? s1 s2 Ha Hb| | | |]; subst.
      apply (lang_star_app r (c :: s1) s2); [by apply IH | done].
    + apply star_cons_inv in H as (s1 & s2 & -> & Ha & Hb).
      constructor; [by apply IH | done].
Qed.

Lemma matches_lang r s : matches r s = true <-> lang r s.
Proof.
  revert r. induction s as [|c s IH]; intros r; cbn.
  - apply nullable_lang.
  - rewrite IH. apply deriv_lang.
Qed.

(** ** The names the pattern of the notebook name allows *)

Lemma in_name_class c : in_class c name_class = is_lower_or_digit c.
Proof. unfold in_class, is_lower_or_digit. cbn. by rewrite orb_false_r. Qed.

Lemma in_hyphen_class c : in_class c hyphen_class = is_hyphen c.
Proof.
  unfold in_class, is_hyphen. cbn. rewrite orb_false_r.
  destruct (Ascii.eqb c "-") eqn:Hc.
  - apply Ascii.eqb_eq in Hc. subst c. reflexivity.
  - apply andb_false_iff.
    destruct (Nat.leb 45 (nat_of_ascii c)) eqn:H1; [|by left].
    destruct (Nat.leb (nat_of_ascii c) 45) eqn:H2; [|by right].
    apply Nat.leb_le in H1, H2.
    assert (Hn : nat_of_ascii c = 45%nat) by lia.
    apply Ascii.eqb_neq in Hc. exfalso. apply Hc.
    rewrite <- (ascii_nat_embedding c), Hn. reflexivity.
Qed.

Lemma hyphen_is_no_name_start c : is_hyphen c = true -> is_lower_or_digit c = false.
Proof. unfold is_hyphen. intros H. apply Ascii.eqb_eq in H. by subst c. Qed.

Lemma hyphens_lang s :
  lang (RStar (RClass hyphen_class)) s <-> forallb is_hyphen s = true.
Proof.
  split.
  - intros H. remember (RStar (RClass hyphen_class)) as r eqn:Hr.
    induction H as [| | | | | |r0 s1 s2 H1 _ H2 IH2]; try discriminate; [reflexivity|].
    inversion Hr; subst r0. inversion H1; subst.
    cbn. rewrite <- in_hyphen_class.
    match goal with E : in_class _ _ = true |- _ => rewrite E end. by apply IH2.
  - induction s as [|c s IH]; cbn; intros H; [constructor|].
    apply andb_true_iff in H as [Hc Hs].
    apply (lang_star_app _ [ c ] s); [|by apply IH].
    constructor. by rewrite in_hyphen_class.
Qed.

Lemma block_lang s :
  lang block s <->
  exists h a, s = h ++ [ a ] /\ forallb is_hyphen h = true /\ is_lower_or_digit a = true.
Proof.
  split.
  - intros H. inversion H as [| |? ? s1 s2 Ha Hb| | | |]; subst.
    inversion Hb; subst. exists s1, c. split; [done|]. split.
    + by apply hyphens_lang.
    + by rewrite <- in_name_class.
  - intros (h & a & -> & Hh & Ha). apply lang_cat.
    + by apply hyphens_lang.
    + constructor. by rewrite in_name_class.
Qed.

Lemma last_snoc_app {A} (l1 l2 : list A) (x : A) :
  last (l1 ++ x :: l2) = last (x :: l2).
Proof. induction l1 as [|y l1 IH]; [done|]. cbn. rewrite <- IH. by destruct l1. Qed.

Lemma forallb_hyphen_name_char h :
  forallb is_hyphen h = true -> forallb name_char h = true.
Proof.
  intros H. apply forallb_forall. intros c Hc.
  rewrite forallb_forall in H. unfold name_char. rewrite (H c Hc). apply orb_true_r.
Qed.

Lemma star_block_tail_ok s : lang (RStar block) s -> tail_ok s = true.
Proof.
  intros H. remember (RStar block) as r eqn:Hr.
  induction H as [| | | | | |r0 s1 s2 H1 _ H2 IH2]; try discriminate; [reflexivity|].
  inversion Hr; subst r0. apply block_lang in H1 as (h & a & -> & Hh & Ha).
  specialize (IH2 eq_refl). unfold tail_ok in *.
  apply andb_true_iff in IH2 as [Hall Hlast].
  apply andb_true_iff. split.
  - rewrite !forallb_app. cbn. unfold name_char at 2. rewrite Ha, Hall.
    cbn. rewrite (forallb_hyphen_name_char _ Hh). reflexivity.
  - rewrite <- app_assoc. cbn. rewrite last_snoc_app.
    destruct s2 as [|c s2]; [exact Ha|].
    cbn in Hlast |- *. exact Hlast.
Qed.

Lemma star_nonempty_inv r s :
  lang (RStar r) s -> s <> [] ->
  exists s1 s2, s = s1 ++ s2 /\ s1 <> [] /\ lang r s1 /\ lang (RStar r) s2.
Proof.
  intros H. remember (RStar r) as r' eqn:Hr.
  induction H as [| | | | | |r0 s1 s2 H1 _ H2 IH2]; try discriminate; [done|].
  inversion Hr; subst r0. intros Hne. destruct s1 as [|c s1].
  - cbn in *. by apply IH2.
  - by exists (c :: s1), s2.
Qed.

Lemma tail_ok_star_block s : tail_ok s = true -> lang (RStar block) s.
Proof.
  induction s as [|c s IH]; intros H; [constructor|].
  unfold tail_ok in H. apply andb_true_iff in H as [Hall Hlast].
  cbn in Hall. apply andb_true_iff in Hall as [Hc Hall].
  assert (Htail : s <> [] -> tail_ok s = true).
  { intros Hne. unfold tail_ok. rewrite Hall. cbn.
    destruct s as [|d s]; [done|]. exact Hlast. }
  destruct (is_lower_or_digit c) eqn:Hld.
  - apply (lang_star_app block [ c ] s).
    + apply block_lang. by exists [], c.
    + destruct s as [|d s]; [constructor|]. by apply IH, Htail.
  - unfold name_char in Hc. rewrite Hld in Hc. cbn in Hc.
    destruct s as [|d s]; [cbn in Hlast; congruence|].
    assert (Hne : d :: s <> []) by done.
    destruct (star_nonempty_inv _ _ (IH (Htail Hne)) Hne) as (b & t & Hs & _ & Hb & Ht).
    rewrite Hs. apply block_lang in Hb as (h & a & -> & Hh & Ha).
    apply (lang_star_app block ((c :: h) ++ [ a ]) t); [|done].
    apply block_lang. exists (c :: h), a. split; [done|]. split; [|done].
    cbn. by rewrite Hc, Hh.
Qed.

Lemma name_regex_lang s : lang name_regex s <-> well_formed_name s = true.
Proof.
  split.
  - intros H. inversion H as [| |? ? s1 s2 Ha Hb| | | |]; subst.
    inversion Ha; subst. apply star_block_tail_ok in Hb.
    cbn. unfold tail_ok in Hb. apply andb_true_iff in Hb as [Hall Hlast].
    match goal with E : in_class _ _ = true |- _ => rewrite in_name_class in E; rewrite E end.
    unfold name_char in Hall.
    rewrite Hall. cbn. exact Hlast.
  - destruct s as [|c s]; [discriminate|]. cbn. intros H.
    apply andb_true_iff in H as [H Hlast]. apply andb_true_iff in H as [Hc Hall].
    apply (lang_cat _ _ [ c ] s).
    + constructor. by rewrite in_name_class.
    + apply tail_ok_star_block. unfold tail_ok, name_char. by rewrite Hall, Hlast.
Qed.

Lemma length_list_ascii (v : string) :
  String.length v = length (list_ascii_of_string v).
Proof. induction v as [|c v IH]; [reflexivity|]. cbn. f_equal. exact IH. Qed.

(** X13.  The values accepted for the notebook name are exactly the strings
    of 1 to 63 characters made of lower-case letters, digits and hyphens that
    neither begin nor end with a hyphen.  For the role name every string is
    accepted. *)
Theorem accepted_names (v : string) :
  accepted "SageMakerNotebookName" v
    = well_formed_name (list_ascii_of_string v) && Nat.leb (String.length v) 63 /\
  accepted "SageMakerIAMRole" v = true.
Proof.
  split; [|reflexivity].
  unfold accepted.
  assert (Hdecl : exists decl,
            parameter "SageMakerNotebookName" = Some decl /\
            member "MinLength" decl = Some (JNum 1) /\
            member "MaxLength" decl = Some (JNum 63) /\
            member "AllowedPattern" decl = Some (JStr "^[a-z0-9](-*[a-z0-9])*")).
  { destruct (parameter "SageMakerNotebookName") as [decl|] eqn:Hdecl;
      [|vm_compute in Hdecl; discriminate].
    exists decl. split; [reflexivity|].
    vm_compute in Hdecl. inversion Hdecl.
    split; [|split]; vm_compute; reflexivity. }
  destruct Hdecl as (decl & -> & Hmin & Hmax & Hpat).
  unfold value_accepted. rewrite Hmin, Hmax, Hpat.
  assert (Hparse : parse_pattern "^[a-z0-9](-*[a-z0-9])*" = Some name_regex)
    by (vm_compute; reflexivity).
  rewrite Hparse.
  assert (Hmatch : matches name_regex (list_ascii_of_string v)
                   = well_formed_name (list_ascii_of_string v)).
  { apply eq_true_iff_eq. rewrite matches_lang. apply name_regex_lang. }
  rewrite Hmatch.
  pose proof (length_list_ascii v) as Hlen.
  destruct (list_ascii_of_string v) as [|c s] eqn:Hs.
  - cbn. rewrite andb_false_r. reflexivity.
  - assert (H1 : (1 <=? Z.of_nat (String.length v)) = true).
    { apply Z.leb_le. rewrite Hlen. cbn [length]. lia. }
    rewrite H1. cbn [andb].
    assert (H2 : (Z.of_nat (String.length v) <=? 63) = Nat.leb (String.length v) 63).
    { destruct (Nat.leb (String.length v) 63) eqn:Hle.
      - apply Nat.leb_le in Hle. apply Z.leb_le. lia.
      - apply Nat.leb_gt in Hle. apply Z.leb_gt. lia. }
    rewrite H2. apply andb_comm.
Qed.
